(** * Brizy Cloud Cache Generator: the sitemap parser and the visit sequencer

    A shallow embedding of [src/App.tsx].  The React component keeps twelve
    [useState] cells; its event handlers queue updates on them, React renders
    once per handler, and the two [useEffect] hooks (the step/countdown timers
    and the remaining-time text) are re-run whenever one of their dependencies
    [currentIndex, isProcessing, isPaused, urls.length, timeDelay] differs from
    the previous render.

    JavaScript numbers are modelled as [Z] (every number the component stores
    is an integer; [NaN] from [parseInt] is [None]), JavaScript strings as
    [string], arrays as [list].  A JavaScript number is a double: the
    arithmetic of [Z] is that of the code as long as the integers involved
    stay within [Js.maxSafeInteger], and the statements that compute with
    the delay, the countdown or the remaining seconds carry that bound.

    Time itself is not modelled: the expiry of the step timer and the ticks
    of the countdown interval are events that may come in any order while the
    timers are pending.  The cleanup of an effect runs together with the
    render that replaces it, so a timer that was cleared never fires. *)

From Stdlib Require Import ZArith String Ascii Bool Lia.
From stdpp Require Import base tactics option list strings pretty.

#[local] Set Warnings "-register-all".
Local Open Scope string_scope.
Local Open Scope Z_scope.

(** ** DOM trees

    What [DOMParser.parseFromString(content, 'text/xml')] hands back: a
    document whose nodes are elements, text (CDATA sections are text nodes),
    comments and processing instructions. *)
Module Dom.

Inductive Node : Type :=
| Element (tagName : string) (childNodes : list Node)
| Text (data : string)
| Comment (data : string)
| ProcessingInstruction (target data : string).

Record Document : Type := { documentChildren : list Node }.

(** The data of every text node below a node, in tree order. *)
Fixpoint descendantText (n : Node) : string :=
  match n with
  | Element _ cs => foldr (fun c acc => descendantText c +:+ acc) "" cs
  | Text d => d
  | Comment _ => ""
  | ProcessingInstruction _ _ => ""
  end.

(** [node.textContent]; [None] is JavaScript's [null], which only a
    document or doctype node returns. *)
Definition textContent (n : Node) : option string :=
  match n with
  | Element _ _ => Some (descendantText n)
  | Text d => Some d
  | Comment d => Some d
  | ProcessingInstruction _ d => Some d
  end.

(** The elements named [name] in the subtree of [n], [n] included, in tree
    order (preorder, depth first). *)
Fixpoint elementsNamed (name : string) (n : Node) : list Node :=
  match n with
  | Element t cs =>
      (if String.eqb t name then [n] else [])
        ++ flat_map (elementsNamed name) cs
  | _ => []
  end.

(** [document.getElementsByTagName(name)] for a name other than ["*"]. *)
Definition getElementsByTagName (name : string) (d : Document) : list Node :=
  flat_map (elementsNamed name) (documentChildren d).

(** How many elements named [name] a subtree holds, counted on the tree
    itself. *)
Fixpoint countNamed (name : string) (n : Node) : nat :=
  match n with
  | Element t cs =>
      ((if String.eqb t name then 1 else 0)
       + foldr (fun c acc => countNamed name c + acc) 0 cs)%nat
  | _ => 0%nat
  end.

Definition countElements (name : string) (d : Document) : nat :=
  foldr (fun c acc => (countNamed name c + acc)%nat) 0%nat (documentChildren d).

(** Induction on a tree with the hypothesis available for every child. *)
Fixpoint Node_nested_ind (P : Node -> Prop)
    (HE : forall t cs, Forall P cs -> P (Element t cs))
    (HT : forall d, P (Text d))
    (HC : forall d, P (Comment d))
    (HP : forall t d, P (ProcessingInstruction t d))
    (n : Node) : P n :=
  match n with
  | Element t cs =>
      HE t cs
        ((fix children (l : list Node) : Forall P l :=
            match l with
            | [] => List.Forall_nil P
            | c :: l' =>
                @List.Forall_cons _ P c l' (Node_nested_ind P HE HT HC HP c)
                  (children l')
            end) cs)
  | Text d => HT d
  | Comment d => HC d
  | ProcessingInstruction t d => HP t d
  end.

End Dom.

(** ** The JavaScript built-ins the component calls *)
Module Js.

(** [xs.join(sep)] *)
Fixpoint join (sep : string) (xs : list string) : string :=
  match xs with
  | [] => ""
  | [x] => x
  | x :: rest => x +:+ sep +:+ join sep rest
  end.

(** [a || ''] on an optional string: [null] and the empty string are
    falsy. *)
Definition orEmpty (a : option string) : string :=
  match a with
  | Some s => if String.eqb s "" then "" else s
  | None => ""
  end.

(** The white space [parseInt] and [trim] skip (the ASCII part of it). *)
Definition isWhiteSpace (c : ascii) : bool :=
  let n := N_of_ascii c in
  (N.eqb n 32 || N.eqb n 9 || N.eqb n 10 || N.eqb n 11 || N.eqb n 12
   || N.eqb n 13)%bool.

Fixpoint trimStart (s : string) : string :=
  match s with
  | String c rest => if isWhiteSpace c then trimStart rest else s
  | EmptyString => EmptyString
  end.

Definition reverse (s : string) : string :=
  string_of_list_ascii (rev (list_ascii_of_string s)).

(** [s.trim()] *)
Definition trim (s : string) : string :=
  reverse (trimStart (reverse (trimStart s))).

(** The value of [c] as a digit in radix [r], if it is one. *)
Definition digitValue (r : Z) (c : ascii) : option Z :=
  let n := Z.of_N (N_of_ascii c) in
  let v :=
    if (48 <=? n) && (n <=? 57) then n - 48
    else if (97 <=? n) && (n <=? 122) then n - 87
    else if (65 <=? n) && (n <=? 90) then n - 55
    else 36 in
  if v <? r then Some v else None.

(** The longest prefix of radix-[r] digits, read as a number; [None] when
    there is no digit at all. *)
Fixpoint digits (r : Z) (acc : option Z) (s : string) : option Z :=
  match s with
  | String c rest =>
      match digitValue r c with
      | Some v => digits r (Some (default 0 acc * r + v)) rest
      | None => acc
      end
  | EmptyString => acc
  end.

(** [parseInt(s)] without a radix: white space, a sign, an optional
    [0x]/[0X] prefix, then the digits.  [None] is [NaN].  The value is the
    exact integer, which is the code's double up to [maxSafeInteger]. *)
Definition parseInt (s : string) : option Z :=
  let s1 := trimStart s in
  let '(sign, s2) :=
    match s1 with
    | String "-" rest => (-1, rest)
    | String "+" rest => (1, rest)
    | _ => (1, s1)
    end in
  let '(radix, s3) :=
    match s2 with
    | String "0" (String "x" rest) => (16, rest)
    | String "0" (String "X" rest) => (16, rest)
    | _ => (10, s2)
    end in
  match digits radix None s3 with
  | Some n => Some (sign * n)
  | None => None
  end.

(** A template literal [`${n}`] of an integer: its decimal digits (the
    code switches to exponent form from [1e21] up). *)
Definition numberToString (n : Z) : string := pretty n.

(** [Number.MAX_SAFE_INTEGER]: up to here every integer is a double of its
    own, and sums, differences, products, floored quotients and remainders
    of such integers whose result stays in the range are exact. *)
Definition maxSafeInteger : Z := 2 ^ 53 - 1.

End Js.

(** ** The component's state *)

(** [interface SitemapUrl] *)
Record SitemapUrl : Type := { url : string; visited : bool }.

(** The [useState] cells of [App], one field each. *)
Record State : Type := mkState {
  sitemapContent : string;
  urls : list SitemapUrl;
  isProcessing : bool;
  currentIndex : Z;
  isPaused : bool;
  sitemapUrl : string;
  isLoading : bool;
  error : string;
  timeDelay : Z;
  showPermissionDialog : bool;
  nextPageCountdown : Z;
  estimatedTimeLeft : string
}.

Definition setSitemapContent (v : string) (s : State) : State :=
  mkState v (urls s) (isProcessing s) (currentIndex s) (isPaused s)
    (sitemapUrl s) (isLoading s) (error s) (timeDelay s)
    (showPermissionDialog s) (nextPageCountdown s) (estimatedTimeLeft s).

Definition setUrls (v : list SitemapUrl) (s : State) : State :=
  mkState (sitemapContent s) v (isProcessing s) (currentIndex s) (isPaused s)
    (sitemapUrl s) (isLoading s) (error s) (timeDelay s)
    (showPermissionDialog s) (nextPageCountdown s) (estimatedTimeLeft s).

Definition setIsProcessing (v : bool) (s : State) : State :=
  mkState (sitemapContent s) (urls s) v (currentIndex s) (isPaused s)
    (sitemapUrl s) (isLoading s) (error s) (timeDelay s)
    (showPermissionDialog s) (nextPageCountdown s) (estimatedTimeLeft s).

Definition setCurrentIndex (v : Z) (s : State) : State :=
  mkState (sitemapContent s) (urls s) (isProcessing s) v (isPaused s)
    (sitemapUrl s) (isLoading s) (error s) (timeDelay s)
    (showPermissionDialog s) (nextPageCountdown s) (estimatedTimeLeft s).

Definition setIsPaused (v : bool) (s : State) : State :=
  mkState (sitemapContent s) (urls s) (isProcessing s) (currentIndex s) v
    (sitemapUrl s) (isLoading s) (error s) (timeDelay s)
    (showPermissionDialog s) (nextPageCountdown s) (estimatedTimeLeft s).

Definition setSitemapUrl (v : string) (s : State) : State :=
  mkState (sitemapContent s) (urls s) (isProcessing s) (currentIndex s)
    (isPaused s) v (isLoading s) (error s) (timeDelay s)
    (showPermissionDialog s) (nextPageCountdown s) (estimatedTimeLeft s).

Definition setIsLoading (v : bool) (s : State) : State :=
  mkState (sitemapContent s) (urls s) (isProcessing s) (currentIndex s)
    (isPaused s) (sitemapUrl s) v (error s) (timeDelay s)
    (showPermissionDialog s) (nextPageCountdown s) (estimatedTimeLeft s).

Definition setError (v : string) (s : State) : State :=
  mkState (sitemapContent s) (urls s) (isProcessing s) (currentIndex s)
    (isPaused s) (sitemapUrl s) (isLoading s) v (timeDelay s)
    (showPermissionDialog s) (nextPageCountdown s) (estimatedTimeLeft s).

Definition setTimeDelay (v : Z) (s : State) : State :=
  mkState (sitemapContent s) (urls s) (isProcessing s) (currentIndex s)
    (isPaused s) (sitemapUrl s) (isLoading s) (error s) v
    (showPermissionDialog s) (nextPageCountdown s) (estimatedTimeLeft s).

Definition setShowPermissionDialog (v : bool) (s : State) : State :=
  mkState (sitemapContent s) (urls s) (isProcessing s) (currentIndex s)
    (isPaused s) (sitemapUrl s) (isLoading s) (error s) (timeDelay s)
    v (nextPageCountdown s) (estimatedTimeLeft s).

Definition setNextPageCountdown (v : Z) (s : State) : State :=
  mkState (sitemapContent s) (urls s) (isProcessing s) (currentIndex s)
    (isPaused s) (sitemapUrl s) (isLoading s) (error s) (timeDelay s)
    (showPermissionDialog s) v (estimatedTimeLeft s).

Definition setEstimatedTimeLeft (v : string) (s : State) : State :=
  mkState (sitemapContent s) (urls s) (isProcessing s) (currentIndex s)
    (isPaused s) (sitemapUrl s) (isLoading s) (error s) (timeDelay s)
    (showPermissionDialog s) (nextPageCountdown s) v.

(** The values of the [useState] calls on the first render. *)
Definition initialState : State :=
  mkState "" [] false (-1) false "" false "" 30 false 0 "".

(** [urls.length] as a JavaScript number. *)
Definition urlsLength (s : State) : Z := Z.of_nat (length (urls s)).

(** [arr[i]] for an integer [i]: [None] is [undefined]. *)
Definition at_index {A} (arr : list A) (i : Z) : option A :=
  if i <? 0 then None else arr !! Z.to_nat i.

(** ** The world around the state

    Besides the state cells a run of the component has: the pending
    [setTimeout] of the timer effect, which holds the [processNextUrl] of the
    render that armed it (so that render's [urls], [currentIndex] and
    [isPaused]); whether the one-second [setInterval] is running; how many
    [fetch] calls are in flight; and the tabs opened so far, oldest first. *)
Record World : Type := mkWorld {
  state : State;
  timer : option State;
  countdownTimer : bool;
  pendingFetches : nat;
  opened : list string
}.

(** Queue a state update. *)
Definition upd (f : State -> State) (w : World) : World :=
  mkWorld (f (state w)) (timer w) (countdownTimer w) (pendingFetches w)
    (opened w).

(** [window.open(u, '_blank')] *)
Definition windowOpen (u : string) (w : World) : World :=
  mkWorld (state w) (timer w) (countdownTimer w) (pendingFetches w)
    (opened w ++ [u]).

Definition setTimers (t : option State) (c : bool) (w : World) : World :=
  mkWorld (state w) t c (pendingFetches w) (opened w).

Definition setPendingFetches (n : nat) (w : World) : World :=
  mkWorld (state w) (timer w) (countdownTimer w) n (opened w).

Definition initialWorld : World := mkWorld initialState None false 0 [].

(** What [fetch(url)] followed by [response.text()] comes to: the promise of
    [fetch] rejects, or there is a response with its [ok] flag whose body
    either arrives or fails to. *)
Inductive FetchOutcome : Type :=
| FetchRejected
| FetchResponse (ok : bool) (text : option string).

(** ** The handlers *)

(** [new DOMParser().parseFromString(content, 'text/xml')]: the browser's XML
    parser, the one interface of the environment the component is
    parametric in. *)
Class DOMParser : Type := parseFromString : string -> Dom.Document.

Section App.

Context {dom : DOMParser}.

Definition parseSitemap (content : string) : list SitemapUrl :=
  let xmlDoc := parseFromString content in
  let locations := Dom.getElementsByTagName "loc" xmlDoc in
  map (fun loc => {| url := Js.orEmpty (Dom.textContent loc);
                     visited := false |})
      locations.

(** What [handleFileUpload] does to the state: the body of its
    [reader.onload], run once the text of the chosen file has been read. *)
Definition handleFileUpload (content : string) (w : World) : World :=
  upd (setError "")
    (upd (setCurrentIndex (-1))
       (upd (setUrls (parseSitemap content))
          (upd (setSitemapContent content) w))).

(** [fetchSitemap] up to its first [await]. *)
Definition fetchSitemapBegin (w : World) : World :=
  setPendingFetches (S (pendingFetches w))
    (upd (setError "") (upd (setIsLoading true) w)).

Definition fetchErrorMessage : string :=
  "Failed to fetch sitemap. Please check the URL and try again.".

(** [fetchSitemap] from the moment the fetch settles: the [try] body, the
    [catch] and the [finally]. *)
Definition fetchSitemapSettled (r : FetchOutcome) (w : World) : World :=
  let w0 := setPendingFetches (Nat.pred (pendingFetches w)) w in
  let caught :=
    upd (setUrls []) (upd (setError fetchErrorMessage) w0) in
  let w1 :=
    match r with
    | FetchRejected => caught
    | FetchResponse false _ => caught
    | FetchResponse true None => caught
    | FetchResponse true (Some content) =>
        upd (setCurrentIndex (-1))
          (upd (setUrls (parseSitemap content))
             (upd (setSitemapContent content) w0))
    end in
  upd (setIsLoading false) w1.

(** [handleUrlSubmit]; [r] is the render the handler belongs to. *)
Definition handleUrlSubmit (r : State) (w : World) : World :=
  if String.eqb (sitemapUrl r) "" then w else fetchSitemapBegin w.

(** [handleTimeDelayChange] on [e.target.value = v]. *)
Definition handleTimeDelayChange (r : State) (v : string) (w : World)
  : World :=
  match Js.parseInt v with
  | Some value =>
      if negb (isProcessing r) && (20 <=? value)
      then upd (setTimeDelay value) w
      else w
  | None => w
  end.

(** [{ ...url, visited: true }] *)
Definition markVisited (u : SitemapUrl) : SitemapUrl :=
  {| url := url u; visited := true |}.

(** [processNextUrl] as defined by render [r].  When [urls[nextIndex]] is
    [undefined] the read of [.url] throws and the rest of the body is
    skipped. *)
Definition processNextUrl (r : State) (w : World) : World :=
  if (currentIndex r <? urlsLength r - 1) && negb (isPaused r) then
    let nextIndex := currentIndex r + 1 in
    let w1 := upd (setCurrentIndex nextIndex) w in
    match at_index (urls r) nextIndex with
    | Some u =>
        let w2 := windowOpen (url u) w1 in
        upd (fun s =>
               setUrls
                 (imap (fun idx u =>
                          if Z.of_nat idx =? nextIndex
                          then markVisited u else u)
                       (urls s))
                 s)
            w2
    | None => w1
    end
  else if currentIndex r =? urlsLength r - 1 then
    upd (setIsProcessing false) w
  else w.

Definition startProcessing (w : World) : World :=
  upd (setShowPermissionDialog true) w.

Definition cancelDialog (w : World) : World :=
  upd (setShowPermissionDialog false) w.

Definition confirmStart (r : State) (w : World) : World :=
  let w1 :=
    upd (setIsPaused false)
      (upd (setIsProcessing true)
         (upd (setShowPermissionDialog false) w)) in
  if currentIndex r =? -1 then processNextUrl r w1 else w1.

(** The Pause/Resume button: [setIsPaused(!isPaused)]. *)
Definition togglePause (r : State) (w : World) : World :=
  upd (setIsPaused (negb (isPaused r))) w.

Definition resetProcess (w : World) : World :=
  upd (setNextPageCountdown 0)
    (upd (setEstimatedTimeLeft "")
       (upd (setIsPaused false)
          (upd (setIsProcessing false)
             (upd (setCurrentIndex (-1))
                (upd (fun s =>
                        setUrls
                          (map (fun u => {| url := url u;
                                            visited := false |})
                               (urls s))
                          s)
                     w))))).

(** The callback of the step timer: a timeout fires once. *)
Definition timerFired (w : World) : World :=
  match timer w with
  | Some r => processNextUrl r (setTimers None (countdownTimer w) w)
  | None => w
  end.

(** The callback of the countdown interval ([prev - 1] on exact integers:
    the code's subtraction up to [Js.maxSafeInteger]). *)
Definition countdownTick (w : World) : World :=
  if countdownTimer w
  then upd (fun s => setNextPageCountdown
                       (Z.max 0 (nextPageCountdown s - 1)) s) w
  else w.

(** ** The effects *)

(** The dependency array shared by both effects. *)
Definition deps (s : State) : Z * bool * bool * Z * Z :=
  (currentIndex s, isProcessing s, isPaused s, urlsLength s, timeDelay s).

(** The guard of the timer effect. *)
Definition armed (s : State) : bool :=
  isProcessing s && negb (isPaused s)
  && (currentIndex s <? urlsLength s - 1).

(** The text the second effect computes (on exact integers: the code's
    arithmetic and printing for [totalSeconds] up to [Js.maxSafeInteger]). *)
Definition formatRemaining (totalSeconds : Z) : string :=
  let hours := totalSeconds / 3600 in
  let minutes := Z.rem totalSeconds 3600 / 60 in
  let seconds := Z.rem totalSeconds 60 in
  let timeString :=
    ((if 0 <? hours then [Js.numberToString hours +:+ "h"] else [])
       ++ (if 0 <? minutes then [Js.numberToString minutes +:+ "m"] else [])
       ++ (if 0 <? seconds then [Js.numberToString seconds +:+ "s"] else [])
    )%list in
  Js.join " " timeString.

Definition estimate (s : State) : string :=
  if isProcessing s && negb (isPaused s) then
    let remainingUrls := urlsLength s - (currentIndex s + 1) in
    let totalSeconds := remainingUrls * timeDelay s in
    formatRemaining totalSeconds
  else "".

(** Running both effects for the render of state [s]: the cleanup of the
    previous run, then the timer effect, then the estimate effect. *)
Definition runEffects (w : World) : World :=
  let s := state w in
  let w1 := setTimers None false w in
  let w2 :=
    if armed s
    then setTimers (Some s) true (upd (setNextPageCountdown (timeDelay s)) w1)
    else w1 in
  upd (setEstimatedTimeLeft (estimate s)) w2.

(** After a handler has run React renders the new state; the effects run
    again only if a dependency changed since the render before. *)
Definition commit (before after : World) : World :=
  if bool_decide (deps (state before) = deps (state after))
  then after
  else runEffects after.

(** ** Events *)

Inductive Event : Type :=
| UrlInput (v : string)
| UrlSubmit
| FetchSettled (r : FetchOutcome)
| FileLoaded (content : string)
| DelayInput (v : string)
| StartClick
| CancelDialog
| ConfirmStart
| TogglePause
| Reset
| TimerFire
| Tick.

(** The handler of each event, run against the current render. *)
Definition handler (e : Event) (w : World) : World :=
  let r := state w in
  match e with
  | UrlInput v => upd (setSitemapUrl v) w
  | UrlSubmit => handleUrlSubmit r w
  | FetchSettled o => fetchSitemapSettled o w
  | FileLoaded content => handleFileUpload content w
  | DelayInput v => handleTimeDelayChange r v w
  | StartClick => startProcessing w
  | CancelDialog => cancelDialog w
  | ConfirmStart => confirmStart r w
  | TogglePause => togglePause r w
  | Reset => resetProcess w
  | TimerFire => timerFired w
  | Tick => countdownTick w
  end.

Definition handle (e : Event) (w : World) : World :=
  commit w (handler e w).

(** Whether the page as rendered for [w] offers the event: the control is
    on the page and not disabled, the timer is pending, a fetch is in
    flight. *)
Definition enabled (e : Event) (w : World) : bool :=
  let s := state w in
  let hasUrls := negb (Nat.eqb (length (urls s)) 0) in
  match e with
  | UrlInput _ => true
  | UrlSubmit => negb (isLoading s)
  | FetchSettled _ => negb (Nat.eqb (pendingFetches w) 0)
  | FileLoaded _ => true
  | DelayInput _ => negb (isProcessing s)
  | StartClick => hasUrls && negb (isProcessing s)
  | CancelDialog => showPermissionDialog s
  | ConfirmStart => showPermissionDialog s
  | TogglePause => hasUrls && isProcessing s
  | Reset => hasUrls
  | TimerFire => bool_decide (is_Some (timer w))
  | Tick => countdownTimer w
  end.

(** Running a list of events, oldest first. *)
Definition run (es : list Event) (w : World) : World :=
  foldl (fun w e => handle e w) w es.

(** The same, refusing an event the page does not offer. *)
Fixpoint runUI (es : list Event) (w : World) : option World :=
  match es with
  | [] => Some w
  | e :: rest => if enabled e w then runUI rest (handle e w) else None
  end.

(** Every state some sequence of events leads to. *)
Inductive reachable : World -> Prop :=
| reachable_init : reachable initialWorld
| reachable_step w e : reachable w -> reachable (handle e w).

(** Every state a user of the page can lead to. *)
Inductive reachableUI : World -> Prop :=
| reachableUI_init : reachableUI initialWorld
| reachableUI_step w e :
    reachableUI w -> enabled e w = true -> reachableUI (handle e w).

(** ** Invariants of the reachable states *)

(** [urls[i].visited], [false] past the end of the list. *)
Definition visitedAt (s : State) (i : nat) : bool :=
  default false (visited <$> urls s !! i).

(** The index never drops below [-1]; exactly the records up to the current
    index are visited; the delay keeps its floor; and a sequencer that is
    not processing sits at index [-1]. *)
Definition stateOk (s : State) : Prop :=
  -1 <= currentIndex s
  /\ (forall i u, urls s !! i = Some u ->
                  visited u = (Z.of_nat i <=? currentIndex s))
  /\ 20 <= timeDelay s
  /\ (isProcessing s = false -> currentIndex s = -1).

(** The timers are pending only while the guard of the timer effect holds,
    the pending step belongs to a render with the current index, list
    length and pause flag, and the remaining-time text is up to date. *)
Definition timersOk (w : World) : Prop :=
  (forall r, timer w = Some r ->
             armed (state w) = true
             /\ currentIndex r = currentIndex (state w)
             /\ urlsLength r = urlsLength (state w)
             /\ isPaused r = false)
  /\ (countdownTimer w = true -> armed (state w) = true)
  /\ estimatedTimeLeft (state w) = estimate (state w).

Definition invariant (w : World) : Prop :=
  stateOk (state w) /\ timersOk w.

(** What a handler may do to the timers and to the remaining-time text
    before the effects get to run. *)
Definition frames (w w' : World) : Prop :=
  (timer w' = timer w \/ timer w' = None)
  /\ countdownTimer w' = countdownTimer w
  /\ (estimatedTimeLeft (state w') = estimatedTimeLeft (state w)
      \/ (estimatedTimeLeft (state w') = ""
          /\ isProcessing (state w') = false)).

(** The dialog is only ever open over a sequencer that is not
    processing. *)
Definition dialogOk (w : World) : Prop :=
  showPermissionDialog (state w) = true -> isProcessing (state w) = false.

Definition isTimerEvent (e : Event) : bool :=
  match e with
  | TimerFire | Tick => true
  | _ => false
  end.

Definition fetchFailed (o : FetchOutcome) : bool :=
  match o with
  | FetchResponse true (Some _) => false
  | _ => true
  end.

(** The Complete state of the specification: a non-empty list, the index on
    its last record, that record visited, not processing. *)
Definition complete (s : State) : Prop :=
  urls s <> []
  /\ currentIndex s = urlsLength s - 1
  /\ (exists u, at_index (urls s) (currentIndex s) = Some u
                /\ visited u = true)
  /\ isProcessing s = false.

(** ** The wording of the specification, for comparison *)

(** The hours, minutes and seconds of a non-negative number of seconds,
    each with its unit. *)
Definition components (totalSeconds : Z) : list (Z * string) :=
  [(totalSeconds / 3600, "h");
   ((totalSeconds mod 3600) / 60, "m");
   (totalSeconds mod 60, "s")].

Definition showComponent (c : Z * string) : string :=
  Js.numberToString (fst c) +:+ snd c.

Fixpoint dropLeadingZeros (cs : list (Z * string)) : list (Z * string) :=
  match cs with
  | (0, _) :: rest => dropLeadingZeros rest
  | _ => cs
  end.

(** "omitting any zero-valued leading components, joined by spaces" *)
Definition formatOmittingLeadingZeros (totalSeconds : Z) : string :=
  Js.join " " (map showComponent (dropLeadingZeros (components totalSeconds))).

(** Omitting every zero-valued component, leading or not. *)
Definition formatOmittingZeros (totalSeconds : Z) : string :=
  Js.join " "
    (map showComponent
       (filter (fun c => fst c <> 0) (components totalSeconds))).

(** "each record's url is the element's text content, trimmed" *)
Definition parseSitemapTrimmed (content : string) : list SitemapUrl :=
  map (fun loc => {| url := Js.trim (Dom.descendantText loc);
                     visited := false |})
      (Dom.getElementsByTagName "loc" (parseFromString content)).

(** The seconds the estimate is computed from. *)
Definition remainingSeconds (s : State) : Z :=
  (urlsLength s - (currentIndex s + 1)) * timeDelay s.

End App.

(** ** The page

    What the JSX shows of a state: the controls and the progress block that
    are rendered only over a non-empty list. *)

(** [urls.length > 0 && (...)]: the block with the buttons, the progress and
    the table. *)
Definition listShown (s : State) : bool := 0 <? urlsLength s.

(** [urls.filter(url => url.visited).length], the first number of the
    progress line. *)
Definition progressCount (s : State) : nat :=
  length (List.filter visited (urls s)).

(** The status cell of a table row. *)
Inductive RowStatus : Type :=
| StatusVisited
| StatusProcessing
| StatusPending.

(** [url.visited ? Visited : index === currentIndex ? Processing : Pending] *)
Definition rowStatus (s : State) (index : nat) (u : SitemapUrl) : RowStatus :=
  if visited u then StatusVisited
  else if Z.of_nat index =? currentIndex s then StatusProcessing
  else StatusPending.

(** [currentIndex === urls.length - 1 && urls[currentIndex]?.visited]: whether
    the line "All pages processed!" is shown. *)
Definition allProcessedShown (s : State) : bool :=
  (currentIndex s =? urlsLength s - 1)
  && default false (visited <$> at_index (urls s) (currentIndex s)).

(** The button in front of Reset. *)
Inductive RunButton : Type :=
| StartButton
| ResumeButton
| PauseButton.

(** [!isProcessing ? Start Processing : isPaused ? Resume : Pause] *)
Definition runButton (s : State) : RunButton :=
  if negb (isProcessing s) then StartButton
  else if isPaused s then ResumeButton
  else PauseButton.

(** [isProcessing && !isPaused && (...)]: the countdown and estimate lines. *)
Definition countdownShown (s : State) : bool :=
  isProcessing s && negb (isPaused s).

(** [error && (...)]: the red banner. *)
Definition errorShown (s : State) : bool := negb (String.eqb (error s) "").

(** The list update of [processNextUrl]:
    [prev.map((url, idx) => idx === nextIndex ? { ...url, visited: true } : url)] *)
Definition visitAt (nextIndex : Z) (prev : list SitemapUrl)
  : list SitemapUrl :=
  imap (fun idx u => if Z.of_nat idx =? nextIndex then markVisited u else u)
       prev.

(** ** Further invariants *)

(** The index stays inside a non-empty list. *)
Definition indexOk (s : State) : Prop :=
  urls s = [] \/ currentIndex s < urlsLength s.

(** Both timers are pending whenever the guard of the timer effect holds. *)
Definition timersPending (w : World) : Prop :=
  armed (state w) = true -> is_Some (timer w) /\ countdownTimer w = true.

(** The pending step belongs to the render of the current list. *)
Definition freshTimer (w : World) : Prop :=
  forall r, timer w = Some r -> urls r = urls (state w).

(** What holds of the states a user of the page can reach: pausing needs a
    run, the countdown stays between 0 and the delay and is 0 outside a run,
    one fetch at most is in flight and [isLoading] says so, and an error is
    only up over an empty list, never during a fetch. *)
Definition pageOk (w : World) : Prop :=
  (isPaused (state w) = true -> isProcessing (state w) = true)
  /\ 0 <= nextPageCountdown (state w) <= timeDelay (state w)
  /\ (isProcessing (state w) = false -> nextPageCountdown (state w) = 0)
  /\ pendingFetches w = (if isLoading (state w) then 1 else 0)%nat
  /\ (isLoading (state w) = true -> error (state w) = "")
  /\ (error (state w) <> "" ->
      error (state w) = fetchErrorMessage /\ urls (state w) = []).

(** ** Sample sitemaps

    The trees an XML parser builds for four small sitemap texts, and a parser
    that knows exactly these texts; it stands in for the browser's parser
    wherever a property is run on a concrete input; then the runs of the
    component the properties below are tried on. *)
Module Sample.
Import Dom.

Definition urlEntry (text : list Node) : Node :=
  Element "url" [Element "loc" text].

(** [<urlset><url><loc>https://a.example/</loc></url></urlset>] *)
Definition oneText : string :=
  "<urlset><url><loc>https://a.example/</loc></url></urlset>".
Definition oneDoc : Document :=
  {| documentChildren :=
       [Element "urlset" [urlEntry [Text "https://a.example/"]]] |}.

Definition twoText : string :=
  "<urlset><url><loc>https://a.example/</loc></url><url><loc>https://b.example/</loc></url></urlset>".
Definition twoDoc : Document :=
  {| documentChildren :=
       [Element "urlset" [urlEntry [Text "https://a.example/"];
                          urlEntry [Text "https://b.example/"]]] |}.

(** A location padded with blanks, and an empty one. *)
Definition paddedText : string :=
  "<urlset><url><loc> https://a.example/ </loc></url><url><loc></loc></url></urlset>".
Definition paddedDoc : Document :=
  {| documentChildren :=
       [Element "urlset" [urlEntry [Text " https://a.example/ "];
                          urlEntry []]] |}.

(** The three locations [A], [B], [C] of the specification's scenario. *)
Definition threeText : string :=
  "<urlset><url><loc>A</loc></url><url><loc>B</loc></url><url><loc>C</loc></url></urlset>".
Definition threeDoc : Document :=
  {| documentChildren :=
       [Element "urlset" [urlEntry [Text "A"]; urlEntry [Text "B"];
                          urlEntry [Text "C"]]] |}.

(** A well-formed document without any location. *)
Definition noneText : string := "<urlset></urlset>".
Definition noneDoc : Document :=
  {| documentChildren := [Element "urlset" []] |}.

#[local] Instance parser : DOMParser := fun content =>
  if String.eqb content oneText then oneDoc
  else if String.eqb content twoText then twoDoc
  else if String.eqb content paddedText then paddedDoc
  else if String.eqb content threeText then threeDoc
  else noneDoc.

(** Two URLs loaded and the run confirmed: the first tab is open and the
    step timer is pending. *)
Definition started : World :=
  run [FileLoaded twoText; StartClick; ConfirmStart] initialWorld.

(** The same run after its only step: both records visited. *)
Definition finished : World :=
  run [FileLoaded twoText; StartClick; ConfirmStart; TimerFire] initialWorld.

(** The same run paused before its step. *)
Definition paused : World :=
  run [FileLoaded twoText; StartClick; ConfirmStart; TogglePause]
    initialWorld.

(** A one-URL list, started: the index is on the last record. *)
Definition startedOne : World :=
  run [FileLoaded oneText; StartClick; ConfirmStart] initialWorld.

(** The dialog opened over one URL, then a sitemap without locations
    loaded behind it. *)
Definition dialogOverEmpty : list Event :=
  [FileLoaded oneText; StartClick; FileLoaded noneText].

(** A one-URL list in the Complete state of the specification. *)
Definition completed : World :=
  mkWorld
    (mkState oneText [{| url := "https://a.example/"; visited := true |}]
       false 0 false "" false "" 30 false 0 "")
    None false 0 ["https://a.example/"].

(** The scenario of the specification: three locations, a delay of 20
    seconds, the start confirmed, and the step timer expiring twice. *)
Definition scenario : list Event :=
  [FileLoaded threeText; DelayInput "20"; StartClick; ConfirmStart;
   TimerFire; TimerFire].

(** Two URLs with a delay of a minute, started. *)
Definition minuteRun : list Event :=
  [FileLoaded twoText; DelayInput "60"; StartClick; ConfirmStart].

(** One URL, started and paused. *)
Definition pausedOne : list Event :=
  [FileLoaded oneText; StartClick; ConfirmStart; TogglePause].

(** The same, resumed. *)
Definition resumedOne : list Event := pausedOne ++ [TogglePause].

(** A fetch that fails while a run over two URLs is in progress. *)
Definition failedFetch : list Event :=
  [FileLoaded twoText; StartClick; ConfirmStart;
   UrlInput "https://a.example/sitemap.xml"; UrlSubmit;
   FetchSettled FetchRejected].

(** The dialog open over one URL, and over the three of the scenario. *)
Definition dialogOverOne : list Event := [FileLoaded oneText; StartClick].
Definition dialogOverThree : list Event :=
  [FileLoaded threeText; StartClick].

(** Two URLs, started, and paused on the page. *)
Definition pausedRun : list Event :=
  [FileLoaded twoText; StartClick; ConfirmStart; TogglePause].

(** A fetch that fails on a fresh page. *)
Definition failedFirstFetch : list Event :=
  [UrlInput "https://a.example/sitemap.xml"; UrlSubmit;
   FetchSettled FetchRejected].

(** A run over two URLs with the padded sitemap loaded during it: the
    sequencer waits at index [-1] over the padded list. *)
Definition reloaded : World :=
  run [FileLoaded twoText; StartClick; ConfirmStart; FileLoaded paddedText]
    initialWorld.

(** The render the pending step of a world belongs to. *)
Definition pendingRender (w : World) : State :=
  default initialState (timer w).

End Sample.

(** ** Proofs *)
Section Properties.

Context {dom : DOMParser}.


Lemma armed_deps s s' : deps s = deps s' -> armed s = armed s'.
Proof. unfold deps, armed. intros [= -> -> -> -> _]. reflexivity. Qed.

Lemma estimate_deps s s' : deps s = deps s' -> estimate s = estimate s'.
Proof. unfold deps, estimate. intros [= -> -> -> -> ->]. reflexivity. Qed.

Lemma state_commit before after :
  state (commit before after) = state after
  \/ state (commit before after)
     = setEstimatedTimeLeft (estimate (state after)) (state after)
  \/ state (commit before after)
     = setEstimatedTimeLeft (estimate (state after))
         (setNextPageCountdown (timeDelay (state after)) (state after)).
Proof.
  unfold commit, runEffects. case_bool_decide; [by left|].
  destruct (armed (state after)); cbn; auto.
Qed.

(** The effects leave every cell but the countdown and the estimate
    alone. *)
Lemma commit_cells before after :
  let s := state (commit before after) in
  let s' := state after in
  sitemapContent s = sitemapContent s' /\ urls s = urls s'
  /\ isProcessing s = isProcessing s' /\ currentIndex s = currentIndex s'
  /\ isPaused s = isPaused s' /\ sitemapUrl s = sitemapUrl s'
  /\ isLoading s = isLoading s' /\ error s = error s'
  /\ timeDelay s = timeDelay s'
  /\ showPermissionDialog s = showPermissionDialog s'.
Proof.
  cbn zeta. destruct (state_commit before after) as [-> | [-> | ->]];
    cbn; repeat split.
Qed.

Lemma commit_env before after :
  pendingFetches (commit before after) = pendingFetches after
  /\ opened (commit before after) = opened after.
Proof.
  unfold commit, runEffects. case_bool_decide; [done|].
  destruct (armed (state after)); cbn; auto.
Qed.

Lemma stateOk_cells s s' :
  urls s = urls s' -> isProcessing s = isProcessing s' ->
  currentIndex s = currentIndex s' -> timeDelay s = timeDelay s' ->
  stateOk s' -> stateOk s.
Proof. unfold stateOk. intros -> -> -> ->. tauto. Qed.

Lemma stateOk_commit before after :
  stateOk (state after) -> stateOk (state (commit before after)).
Proof.
  pose proof (commit_cells before after) as H. cbn zeta in H.
  apply stateOk_cells; tauto.
Qed.

Lemma timersOk_runEffects w : timersOk (runEffects w).
Proof.
  unfold timersOk, runEffects.
  destruct (armed (state w)) eqn:Ha; cbn.
  - assert (Hp : isPaused (state w) = false).
    { unfold armed in Ha. destruct (isPaused (state w)); [|done].
      by rewrite andb_false_r in Ha. }
    split; [|split]; [|done|done].
    intros r [= <-]. cbn. by rewrite Hp.
  - split; [|split]; done.
Qed.

Lemma timersOk_commit w w' :
  timersOk w -> frames w w' -> timersOk (commit w w').
Proof.
  intros (Ht & Hc & He) (Hft & Hfc & Hfe). unfold commit.
  case_bool_decide as Hd; [|apply timersOk_runEffects].
  pose proof (armed_deps _ _ Hd) as Ha.
  pose proof (estimate_deps _ _ Hd) as Hest.
  unfold deps in Hd. injection Hd as Hi Hp Hq Hl _.
  split; [|split].
  - intros r Hr. destruct Hft as [E|E]; rewrite E in Hr; [|done].
    apply Ht in Hr. destruct Hr as (H1 & H2 & H3 & H4).
    rewrite <- Ha, H2, H3. done.
  - rewrite Hfc, <- Ha. exact Hc.
  - destruct Hfe as [E | [E Hf]].
    + by rewrite E, He.
    + rewrite E. unfold estimate. by rewrite Hf.
Qed.

Ltac unfold_handlers :=
  unfold handler, handleUrlSubmit, fetchSitemapBegin, fetchSitemapSettled,
    handleFileUpload, handleTimeDelayChange, startProcessing, cancelDialog,
    confirmStart, togglePause, resetProcess, timerFired, countdownTick,
    processNextUrl in *.

Lemma frames_handler e w : frames w (handler e w).
Proof.
  unfold frames. destruct e; unfold_handlers;
    repeat case_match; cbn; auto.
Qed.

Lemma at_index_Some {A} (l : list A) (i : Z) :
  0 <= i < Z.of_nat (length l) -> is_Some (at_index l i).
Proof.
  intros Hi. unfold at_index.
  destruct (Z.ltb_spec i 0); [lia|].
  apply lookup_lt_is_Some. lia.
Qed.

Lemma parseSitemap_visited content i u :
  parseSitemap content !! i = Some u -> visited u = false.
Proof.
  unfold parseSitemap. rewrite list_lookup_fmap.
  destruct (_ !! i); [|done]. by intros [= <-].
Qed.

(** One call of [processNextUrl] from a render that agrees with the state
    on the index and the list length, and that either takes the advancing
    branch or sits at index [-1]. *)
Lemma processNextUrl_stateOk r w :
  stateOk (state w) ->
  isProcessing (state w) = true ->
  currentIndex r = currentIndex (state w) ->
  urlsLength r = urlsLength (state w) ->
  currentIndex r = -1
  \/ (currentIndex r <? urlsLength r - 1) && negb (isPaused r) = true ->
  stateOk (state (processNextUrl r w)).
Proof.
  intros (Ha & Hb & Hd & Hf) Hp Hc Hl Hbr. unfold processNextUrl.
  destruct ((currentIndex r <? urlsLength r - 1) && negb (isPaused r))
    eqn:Hgo.
  - apply andb_true_iff in Hgo as [Hlt _]. apply Z.ltb_lt in Hlt.
    destruct (at_index_Some (urls r) (currentIndex r + 1)) as [u Hu].
    { unfold urlsLength in Hlt. lia. }
    rewrite Hu. cbn. unfold stateOk. cbn. split; [lia|].
    split; [|split; [done|congruence]].
    intros i v. rewrite list_lookup_imap.
    destruct (urls (state w) !! i) as [u0|] eqn:Hi; [|done].
    cbn. intros [= <-]. specialize (Hb i u0 Hi).
    rewrite <- Hc in Hb.
    destruct (Z.eqb_spec (Z.of_nat i) (currentIndex r + 1)) as [E|E]; cbn.
    + symmetry. apply Z.leb_le. lia.
    + rewrite Hb.
      destruct (Z.leb_spec (Z.of_nat i) (currentIndex r));
        symmetry; [apply Z.leb_le | apply Z.leb_gt]; lia.
  - destruct Hbr as [Hm1 | ?]; [|done].
    destruct (currentIndex r =? urlsLength r - 1); cbn.
    + unfold stateOk. cbn. repeat split; try done. intros _. congruence.
    + done.
Qed.

Lemma stateOk_handler e w :
  invariant w -> stateOk (state (handler e w)).
Proof.
  intros [(Ha & Hb & Hd & Hf) (Ht & Hc & He)].
  assert (Hs : stateOk (state w)) by done.
  destruct e; cbn [handler].
  - done.
  - unfold_handlers. by case_match.
  - unfold_handlers. unfold stateOk.
    destruct r as [|[] []]; cbn; repeat split; try done;
      try (intros i u Hu; rewrite (parseSitemap_visited _ _ _ Hu);
           symmetry; apply Z.leb_gt; lia).
  - unfold_handlers. unfold stateOk. cbn. repeat split; try done.
    intros i u Hu. rewrite (parseSitemap_visited _ _ _ Hu).
    symmetry. apply Z.leb_gt. lia.
  - unfold_handlers. destruct (Js.parseInt v) as [value|]; [|done].
    destruct (negb _ && (20 <=? value)) eqn:Hg; [|done].
    apply andb_true_iff in Hg as [_ Hg]. apply Z.leb_le in Hg.
    unfold stateOk. cbn. done.
  - done.
  - done.
  - unfold confirmStart.
    set (w1 := upd (setIsPaused false) _).
    assert (Hs1 : stateOk (state w1)).
    { unfold stateOk. cbn. repeat split; try done. }
    destruct (Z.eqb_spec (currentIndex (state w)) (-1)) as [E|E]; [|done].
    apply processNextUrl_stateOk; try done. by left.
  - done.
  - unfold_handlers. unfold stateOk. cbn. repeat split; try done.
    intros i u. rewrite list_lookup_fmap.
    destruct (_ !! i); [|done]. intros [= <-]. cbn.
    symmetry. apply Z.leb_gt. lia.
  - unfold timerFired. destruct (timer w) as [r|] eqn:Hr; [|done].
    destruct (Ht r eq_refl) as (Harm & Hi & Hl & Hq).
    unfold armed in Harm.
    apply andb_true_iff in Harm as [Harm Hlt].
    apply andb_true_iff in Harm as [Hp _].
    apply processNextUrl_stateOk; try done.
    right. rewrite Hi, Hl, Hlt, Hq. done.
  - unfold_handlers. by case_match.
Qed.

Theorem invariant_handle e w : invariant w -> invariant (handle e w).
Proof.
  intros Hi. split.
  - apply stateOk_commit, stateOk_handler, Hi.
  - apply timersOk_commit; [apply Hi | apply frames_handler].
Qed.

Lemma invariant_init : invariant initialWorld.
Proof.
  split.
  - unfold stateOk. cbn. repeat split; try lia. intros i u.
    by rewrite lookup_nil.
  - unfold timersOk. cbn. repeat split; done.
Qed.

Lemma reachable_invariant w : reachable w -> invariant w.
Proof.
  induction 1; [apply invariant_init | by apply invariant_handle].
Qed.

Lemma reachable_run es : reachable (run es initialWorld).
Proof.
  unfold run. induction es as [|e es IH] using rev_ind; cbn.
  - constructor.
  - rewrite foldl_app. cbn. by constructor.
Qed.

Lemma reachableUI_reachable w : reachableUI w -> reachable w.
Proof. induction 1; by constructor. Qed.

Lemma runUI_run es w w' : runUI es w = Some w' -> w' = run es w.
Proof.
  revert w. induction es as [|e es IH]; cbn; intros w.
  - congruence.
  - destruct (enabled e w); [apply IH | done].
Qed.

Lemma runUI_reachableUI es w w' :
  reachableUI w -> runUI es w = Some w' -> reachableUI w'.
Proof.
  revert w. induction es as [|e es IH]; cbn; intros w Hw.
  - by intros [= <-].
  - destruct (enabled e w) eqn:He; [|done].
    apply IH. by constructor.
Qed.

(** A sequencer that is not processing is at index [-1]: no reachable
    state has [isProcessing = false] at the last index of a non-empty
    list. *)
Lemma not_processing_is_idle w :
  reachable w -> isProcessing (state w) = false ->
  currentIndex (state w) = -1.
Proof. intros Hw. apply (reachable_invariant w Hw). Qed.

(** No expiry of a timer ever ends the processing: the step timer is only
    pending for a render that advances. *)
Lemma timer_events_keep_processing e w :
  reachable w -> isTimerEvent e = true ->
  isProcessing (state (handle e w)) = isProcessing (state w).
Proof.
  intros Hw He. unfold handle.
  destruct (commit_cells w (handler e w)) as (_ & _ & -> & _).
  destruct (reachable_invariant w Hw) as [(Ha & _) (Ht & _)].
  destruct e; try done; cbn [handler].
  - unfold timerFired. destruct (timer w) as [r|]; [|done].
    destruct (Ht r eq_refl) as (Harm & Hi & Hl & Hq).
    apply andb_true_iff in Harm as [_ Hlt]. apply Z.ltb_lt in Hlt.
    unfold processNextUrl. rewrite Hi, Hl, Hq.
    destruct (Z.ltb_spec (currentIndex (state w)) (urlsLength (state w) - 1));
      [|lia].
    destruct (at_index_Some (urls r) (currentIndex (state w) + 1)) as [u ->];
      [|done].
    unfold urlsLength in *. lia.
  - unfold countdownTick. by case_match.
Qed.

(** In a reachable state nothing is pending unless the timer effect's
    guard holds. *)
Lemma no_timers_unless_armed w :
  reachable w -> armed (state w) = false ->
  timer w = None /\ countdownTimer w = false.
Proof.
  intros Hw Ha. destruct (reachable_invariant w Hw) as [_ (Ht & Hc & _)].
  split.
  - destruct (timer w) as [r|]; [|done].
    destruct (Ht r eq_refl) as [E _]. congruence.
  - destruct (countdownTimer w); [|done]. rewrite Hc in Ha; done.
Qed.

Lemma handle_unarmed_timer_event e w :
  timer w = None -> countdownTimer w = false -> isTimerEvent e = true ->
  handle e w = w.
Proof.
  intros Ht Hc He. unfold handle, commit.
  destruct e; try done; cbn; unfold timerFired, countdownTick;
    rewrite ?Ht, ?Hc; by rewrite bool_decide_eq_true_2.
Qed.

(** C1: in every reachable state the visited flags form a prefix of the
    URL list: if record [i] is visited, so is every record [j] before it.
    Reachable means after any sequence of events (load, start, step, pause,
    resume, reset and the others). *)
Theorem visited_prefix w i j :
  reachable w -> (j < i)%nat ->
  visitedAt (state w) i = true -> visitedAt (state w) j = true.
Proof.
  intros Hw Hji. destruct (reachable_invariant w Hw) as [(_ & Hb & _) _].
  unfold visitedAt.
  destruct (urls (state w) !! i) as [u|] eqn:Hi; [|done]. cbn.
  intros Hv. rewrite (Hb i u Hi) in Hv. apply Z.leb_le in Hv.
  destruct (lookup_lt_is_Some_2 (urls (state w)) j) as [v Hj].
  { apply lookup_lt_Some in Hi. lia. }
  rewrite Hj. cbn. rewrite (Hb j v Hj). apply Z.leb_le. lia.
Qed.

(** C4: [timeDelay] is at least 20 in every reachable state, whatever text
    the delay box submits, and while [isProcessing] is true a change of the
    delay box leaves [timeDelay] as it was. *)
Theorem delay_floor w v :
  reachable w ->
  20 <= timeDelay (state w)
  /\ 20 <= timeDelay (state (handle (DelayInput v) w))
  /\ (isProcessing (state w) = true ->
      timeDelay (state (handle (DelayInput v) w)) = timeDelay (state w)).
Proof.
  intros Hw. split; [|split].
  - apply (reachable_invariant w Hw).
  - apply (reachable_invariant (handle (DelayInput v) w)).
    by constructor.
  - intros Hp.
    destruct (commit_cells w (handler (DelayInput v) w))
      as (_ & _ & _ & _ & _ & _ & _ & _ & E & _).
    unfold handle. rewrite E. cbn. unfold handleTimeDelayChange.
    rewrite Hp. by destruct (Js.parseInt v).
Qed.

Lemma resetProcess_handle w :
  handle Reset w = resetProcess w
  \/ handle Reset w = setTimers None false (resetProcess w).
Proof.
  unfold handle, commit. cbn [handler].
  case_bool_decide; [by left|]. right. reflexivity.
Qed.

Lemma resetProcess_twice w :
  resetProcess (resetProcess w) = resetProcess w.
Proof.
  destruct w as [[] t c p o]. cbv -[map]. by rewrite map_map.
Qed.

Lemma resetProcess_setTimers t c w :
  resetProcess (setTimers t c w) = setTimers t c (resetProcess w).
Proof. destruct w as [[] t0 c0 p o]. by cbv -[map]. Qed.

Lemma reset_clears_timers w :
  reachable w ->
  state (handle Reset w) = state (resetProcess w)
  /\ timer (handle Reset w) = None
  /\ countdownTimer (handle Reset w) = false.
Proof.
  intros Hw.
  assert (Hs : state (handle Reset w) = state (resetProcess w)).
  { by destruct (resetProcess_handle w) as [-> | ->]. }
  split; [done|]. apply no_timers_unless_armed; [by constructor|].
  by rewrite Hs.
Qed.

(** C5: reset is idempotent.  From every reachable state a second reset
    changes nothing, and after a reset every visited flag is false, the
    index is [-1], the sequencer neither processes nor pauses, the
    countdown is 0, the estimate is empty and no timer is pending. *)
Theorem reset_idempotent w :
  reachable w ->
  let w1 := handle Reset w in
  handle Reset w1 = w1
  /\ (forall i, visitedAt (state w1) i = false)
  /\ currentIndex (state w1) = -1
  /\ isProcessing (state w1) = false
  /\ isPaused (state w1) = false
  /\ nextPageCountdown (state w1) = 0
  /\ estimatedTimeLeft (state w1) = ""
  /\ timer w1 = None
  /\ countdownTimer w1 = false.
Proof.
  intros Hw w1.
  destruct (reset_clears_timers w Hw) as [Hs Ht]. fold w1 in Hs, Ht.
  split; [|rewrite Hs; cbn; repeat split; try apply Ht].
  - assert (Hfix : resetProcess w1 = w1).
    { subst w1. destruct (resetProcess_handle w) as [-> | ->].
      - apply resetProcess_twice.
      - by rewrite resetProcess_setTimers, resetProcess_twice. }
    destruct (resetProcess_handle w1) as [-> | ->]; [done|].
    rewrite Hfix. destruct Ht as [Ht Hc]. revert Ht Hc.
    generalize w1. intros [s1 t1 c1 p1 o1]. cbn. by intros -> ->.
  - intros i. unfold visitedAt. cbn. rewrite list_lookup_fmap.
    by destruct (_ !! i).
Qed.

Lemma timersOk_unarmed w :
  timersOk w -> armed (state w) = false ->
  timer w = None /\ countdownTimer w = false.
Proof.
  intros (Ht & Hc & _) Ha. split.
  - destruct (timer w) as [r|]; [|done].
    destruct (Ht r eq_refl) as [E _]. congruence.
  - destruct (countdownTimer w); [|done]. rewrite Hc in Ha; done.
Qed.

Lemma armed_commit before after :
  armed (state (commit before after)) = armed (state after).
Proof.
  destruct (commit_cells before after)
    as (_ & E1 & E2 & E3 & E4 & _).
  unfold armed, urlsLength. by rewrite E1, E2, E3, E4.
Qed.

(** Once a handler leaves the guard of the timer effect false, the render
    that follows has no timer pending. *)
Lemma commit_unarmed w w' :
  reachable w -> frames w w' -> armed (state w') = false ->
  timer (commit w w') = None /\ countdownTimer (commit w w') = false.
Proof.
  intros Hw Hf Ha. apply timersOk_unarmed.
  - apply timersOk_commit; [apply (reachable_invariant w Hw) | done].
  - by rewrite armed_commit.
Qed.

Lemma frames_processNextUrl r w : frames w (processNextUrl r w).
Proof.
  unfold frames, processNextUrl. repeat case_match; cbn; auto.
Qed.

Lemma run_timer_events_unarmed es w :
  timer w = None -> countdownTimer w = false ->
  forallb isTimerEvent es = true -> run es w = w.
Proof.
  intros Ht Hc. unfold run. induction es as [|e es IH]; cbn; [done|].
  intros [He Hes]%andb_true_iff.
  rewrite (handle_unarmed_timer_event e w Ht Hc He). by apply IH.
Qed.

(** The [processNextUrl] of a render that was paused advances nothing. *)
Lemma processNextUrl_paused r w :
  isPaused r = true ->
  currentIndex (state (processNextUrl r w)) = currentIndex (state w)
  /\ urls (state (processNextUrl r w)) = urls (state w)
  /\ opened (processNextUrl r w) = opened w.
Proof.
  intros Hp. unfold processNextUrl. rewrite Hp, andb_false_r.
  by destruct (currentIndex r =? urlsLength r - 1).
Qed.

(** Pausing and resuming, in every reachable state.  A step timer or
    countdown tick that fires after a reset changes nothing.  While
    [isPaused] is true, one that fires changes nothing either; a resume
    while a next URL remains ([currentIndex < urls.length - 1]) re-arms both
    timers with the countdown at the full [timeDelay]; and a resume with no
    URL remaining arms nothing and leaves the countdown as it was. *)
Lemma pause_and_resume w :
  reachable w ->
  (forall e, isTimerEvent e = true ->
             handle e (handle Reset w) = handle Reset w)
  /\ (isPaused (state w) = true ->
      (forall e, isTimerEvent e = true -> handle e w = w)
      /\ let w' := handle TogglePause w in
         isPaused (state w') = false
         /\ (isProcessing (state w) = true ->
             currentIndex (state w) < urlsLength (state w) - 1 ->
             nextPageCountdown (state w') = timeDelay (state w')
             /\ is_Some (timer w')
             /\ countdownTimer w' = true)
         /\ (urlsLength (state w) - 1 <= currentIndex (state w) ->
             nextPageCountdown (state w') = nextPageCountdown (state w)
             /\ timer w' = None
             /\ countdownTimer w' = false)).
Proof.
  intros Hw. split.
  - intros e He.
    destruct (reset_clears_timers w Hw) as (_ & Ht & Hc).
    by apply handle_unarmed_timer_event.
  - intros Hp. split.
    + intros e He.
      destruct (no_timers_unless_armed w Hw) as [Ht Hc].
      { unfold armed. rewrite Hp. by rewrite andb_false_r. }
      by apply handle_unarmed_timer_event.
    + clear Hw.
      unfold handle, commit, runEffects, armed, deps, urlsLength in *.
      cbn [handler]. unfold togglePause.
      destruct w as [[] t c p o]. cbn in Hp. subst. cbn.
      rewrite bool_decide_eq_false_2 by congruence.
      split; [|split].
      * by repeat case_match.
      * intros Hpr Hlt. apply Z.ltb_lt in Hlt. subst. cbn.
        rewrite Hlt. cbn. eauto.
      * intros Hge. apply Z.ltb_ge in Hge. rewrite Hge, andb_false_r.
        cbn. done.
Qed.

(** The step timer is only ever pending for a render before the last
    record: the guard [currentIndex < urls.length - 1] of the timer effect
    keeps [processNextUrl] from running at the last index, where its branch
    [else if (currentIndex === urls.length - 1)] would end the run. *)
Lemma step_timer_before_last w r :
  reachable w -> timer w = Some r ->
  currentIndex r < urlsLength r - 1
  /\ currentIndex (state w) < urlsLength (state w) - 1.
Proof.
  intros Hw Hr.
  destruct (reachable_invariant w Hw) as [_ (Ht & _)].
  destruct (Ht r Hr) as (Harm & Hi & Hl & _).
  apply andb_true_iff in Harm as [_ Hlt]. apply Z.ltb_lt in Hlt.
  rewrite Hi, Hl. done.
Qed.

(** The branch [else if (currentIndex === urls.length - 1)] of
    [processNextUrl] taken alone, for a render [r] whose index is the last:
    [isProcessing] becomes false, the index, the list and the opened tabs
    stay as they were, and the render that follows arms no timer.  By
    [step_timer_before_last] no step timer of a run calls it so. *)
Lemma processNextUrl_at_last_index w r :
  reachable w -> currentIndex r = urlsLength r - 1 ->
  let w' := commit w (processNextUrl r w) in
  isProcessing (state w') = false
  /\ currentIndex (state w') = currentIndex (state w)
  /\ urls (state w') = urls (state w)
  /\ opened w' = opened w
  /\ timer w' = None
  /\ countdownTimer w' = false.
Proof.
  intros Hw Hr w'.
  assert (Hp : processNextUrl r w = upd (setIsProcessing false) w).
  { unfold processNextUrl. rewrite Hr, Z.ltb_irrefl, Z.eqb_refl. done. }
  destruct (commit_cells w (processNextUrl r w))
    as (_ & E1 & E2 & E3 & _).
  destruct (commit_env w (processNextUrl r w)) as [_ E4].
  assert (Ht : timer w' = None /\ countdownTimer w' = false).
  { apply commit_unarmed; [done | apply frames_processNextUrl |].
    rewrite Hp. reflexivity. }
  fold w' in E1, E2, E3, E4. rewrite Hp in E1, E2, E3, E4.
  destruct Ht as [Ht Hc]. repeat split; done.
Qed.

(** After a visit of the last record in a run ([isProcessing] true, the
    index on the last record) nothing is pending, every timer event leaves
    the state as it is, and [isProcessing] is still true. *)
Lemma last_record_stays_processing w :
  reachable w -> isProcessing (state w) = true ->
  currentIndex (state w) = urlsLength (state w) - 1 ->
  timer w = None /\ countdownTimer w = false
  /\ (forall es, forallb isTimerEvent es = true -> run es w = w).
Proof.
  intros Hw Hp Hi.
  destruct (no_timers_unless_armed w Hw) as [Ht Hc].
  { unfold armed. rewrite Hi, Z.ltb_irrefl. by rewrite andb_false_r. }
  split; [done|]. split; [done|].
  intros es Hes. by apply run_timer_events_unarmed.
Qed.

Lemma dialogOk_handle e w :
  enabled e w = true -> dialogOk w -> dialogOk (handle e w).
Proof.
  unfold dialogOk, handle. intros He Hd.
  destruct (commit_cells w (handler e w))
    as (_ & _ & -> & _ & _ & _ & _ & _ & _ & ->).
  revert He Hd. destruct e; cbn [enabled]; unfold_handlers;
    repeat case_match; cbn; intros; auto; try congruence.
  all: try (apply andb_true_iff in He as [_ He];
            apply negb_true_iff in He; congruence).
Qed.

Lemma reachableUI_dialogOk w : reachableUI w -> dialogOk w.
Proof.
  induction 1; [done | by apply dialogOk_handle].
Qed.

(** C9: with an empty URL list, confirming Start (which the page offers
    only while the dialog is open) ends with [isProcessing = false] and
    [currentIndex = -1], opens no tab and leaves no timer pending. *)
Theorem start_with_empty_list w :
  reachableUI w -> enabled ConfirmStart w = true -> urls (state w) = [] ->
  let w' := handle ConfirmStart w in
  isProcessing (state w') = false
  /\ currentIndex (state w') = -1
  /\ opened w' = opened w
  /\ timer w' = None
  /\ countdownTimer w' = false.
Proof.
  intros Hui He Hnil w'.
  pose proof (reachableUI_reachable w Hui) as Hw.
  pose proof (reachableUI_dialogOk w Hui He) as Hnp.
  pose proof (not_processing_is_idle w Hw Hnp) as Hidx.
  assert (Hh : handler ConfirmStart w
               = upd (setIsProcessing false)
                   (upd (setIsPaused false)
                      (upd (setIsProcessing true)
                         (upd (setShowPermissionDialog false) w)))).
  { cbn [handler]. unfold confirmStart, processNextUrl, urlsLength.
    rewrite Hidx, Hnil. reflexivity. }
  destruct (commit_cells w (handler ConfirmStart w))
    as (_ & _ & E2 & E3 & _).
  destruct (commit_env w (handler ConfirmStart w)) as [_ E4].
  assert (Ht : timer w' = None /\ countdownTimer w' = false).
  { apply commit_unarmed; [done | apply frames_handler |].
    rewrite Hh. reflexivity. }
  fold (handle ConfirmStart w) in E2, E3, E4. fold w' in E2, E3, E4.
  rewrite Hh in E2, E3, E4. cbn in E2, E3, E4.
  destruct Ht. repeat split; try done. congruence.
Qed.

(** C10: confirming Start in the Complete state sets [isProcessing] again
    and does nothing else: the index, the list with its visited flags and
    the opened tabs are unchanged, and neither timer is armed. *)
Theorem start_when_complete w :
  complete (state w) ->
  let w' := handle ConfirmStart w in
  isProcessing (state w') = true
  /\ isPaused (state w') = false
  /\ currentIndex (state w') = currentIndex (state w)
  /\ urls (state w') = urls (state w)
  /\ opened w' = opened w
  /\ timer w' = None
  /\ countdownTimer w' = false.
Proof.
  intros (Hne & Hidx & _ & Hnp) w'.
  assert (Hlen : 0 < urlsLength (state w)).
  { unfold urlsLength. destruct (urls (state w)); [done | cbn; lia]. }
  assert (Hh : handler ConfirmStart w
               = upd (setIsPaused false)
                   (upd (setIsProcessing true)
                      (upd (setShowPermissionDialog false) w))).
  { cbn [handler]. unfold confirmStart.
    destruct (Z.eqb_spec (currentIndex (state w)) (-1)); [lia | done]. }
  subst w'. unfold handle, commit. rewrite Hh.
  rewrite bool_decide_eq_false_2.
  - unfold runEffects, armed, urlsLength in *. cbn.
    rewrite Hidx, Z.ltb_irrefl. cbn. repeat split; try done.
  - unfold deps. cbn. rewrite Hnp. congruence.
Qed.

(** C8, as the code has it.  A remote load that fails (the fetch rejects,
    the response is not ok, or its body cannot be read) ends with the fixed,
    non-empty error message, an empty URL list and [isLoading] false, and
    leaves [isProcessing] and [isPaused] as they were, so a sequencer that
    was idle stays idle.  A successful load installs the freshly parsed
    records with [currentIndex = -1], and the state is the one the file
    variant produces for the same text, up to [isLoading] and the error
    message, which the fetch had cleared when it began. *)
Theorem remote_load w o :
  let w' := handle (FetchSettled o) w in
  (fetchFailed o = true ->
   error (state w') = fetchErrorMessage
   /\ fetchErrorMessage <> ""
   /\ urls (state w') = []
   /\ isLoading (state w') = false
   /\ isProcessing (state w') = isProcessing (state w)
   /\ isPaused (state w') = isPaused (state w)
   /\ (isProcessing (state w) = false -> currentIndex (state w) = -1 ->
       isProcessing (state w') = false /\ currentIndex (state w') = -1))
  /\ (forall content, o = FetchResponse true (Some content) ->
      urls (state w') = parseSitemap content
      /\ currentIndex (state w') = -1
      /\ sitemapContent (state w') = content
      /\ state w'
         = setIsLoading false
             (setError (error (state w))
                (state (handle (FileLoaded content) w)))).
Proof.
  intros w'. split.
  - intros Hf.
    destruct (commit_cells w (handler (FetchSettled o) w))
      as (_ & E1 & E2 & E3 & E4 & _ & E5 & E6 & _).
    fold (handle (FetchSettled o) w) in E1, E2, E3, E4, E5, E6.
    fold w' in E1, E2, E3, E4, E5, E6.
    assert (Hh : handler (FetchSettled o) w
                 = upd (setIsLoading false)
                     (upd (setUrls [])
                        (upd (setError fetchErrorMessage)
                           (setPendingFetches
                              (Nat.pred (pendingFetches w)) w)))).
    { cbn [handler]. unfold fetchSitemapSettled.
      by destruct o as [|[] []]. }
    rewrite Hh in E1, E2, E3, E4, E5, E6. cbn in E1, E2, E3, E4, E5, E6.
    repeat split; try done. all: congruence.
  - intros content ->. subst w'.
    unfold handle, commit, runEffects, armed, estimate, deps, urlsLength.
    cbn [handler]. unfold fetchSitemapSettled, handleFileUpload.
    destruct w as [[] t c p o]. cbn.
    case_bool_decide; cbn; [done|]. by case_match.
Qed.

Lemma formatRemaining_nonneg t :
  0 <= t -> formatRemaining t = formatOmittingZeros t.
Proof.
  intros Ht. unfold formatRemaining, formatOmittingZeros, components.
  rewrite !Z.rem_mod_nonneg by lia.
  assert (H1 : 0 <= t / 3600) by (apply Z.div_pos; lia).
  assert (H2 : 0 <= t mod 3600 / 60).
  { apply Z.div_pos; [|lia]. apply Z.mod_pos_bound. lia. }
  assert (H3 : 0 <= t mod 60) by (apply Z.mod_pos_bound; lia).
  rewrite !filter_cons, filter_nil. cbn [fst].
  destruct (Z.ltb_spec 0 (t / 3600)), (Z.ltb_spec 0 (t mod 3600 / 60)),
    (Z.ltb_spec 0 (t mod 60));
    repeat case_decide; try lia; reflexivity.
Qed.

Lemma formatRemaining_nonpos t : t <= 0 -> formatRemaining t = "".
Proof.
  intros Ht. unfold formatRemaining.
  assert (H1 : t / 3600 <= 0).
  { apply Z.div_le_upper_bound; lia. }
  assert (H2 : Z.rem t 3600 / 60 <= 0).
  { apply Z.div_le_upper_bound; [lia|].
    pose proof (Z.rem_nonpos t 3600). lia. }
  assert (H3 : Z.rem t 60 <= 0).
  { pose proof (Z.rem_nonpos t 60). lia. }
  destruct (Z.ltb_spec 0 (t / 3600)), (Z.ltb_spec 0 (Z.rem t 3600 / 60)),
    (Z.ltb_spec 0 (Z.rem t 60)); try lia; reflexivity.
Qed.

(** C3, as the code has it: while running, and with the remaining seconds
    [(urls.length - (currentIndex + 1)) * timeDelay] within
    [Number.MAX_SAFE_INTEGER], the estimate is the text of that number of
    seconds in hours, minutes and seconds with every zero-valued component
    left out, leading or not, joined by single spaces, and it is empty when
    that number is not positive; 90 seconds read ["1m 30s"] and 0 seconds
    read [""]. *)
Theorem estimate_while_running w :
  reachable w ->
  isProcessing (state w) = true -> isPaused (state w) = false ->
  remainingSeconds (state w) <= Js.maxSafeInteger ->
  estimatedTimeLeft (state w) = formatRemaining (remainingSeconds (state w))
  /\ (0 <= remainingSeconds (state w) ->
      estimatedTimeLeft (state w)
      = formatOmittingZeros (remainingSeconds (state w)))
  /\ (remainingSeconds (state w) <= 0 -> estimatedTimeLeft (state w) = "")
  /\ formatRemaining 90 = "1m 30s"
  /\ formatRemaining 0 = "".
Proof.
  intros Hw Hp Hq _.
  destruct (reachable_invariant w Hw) as [_ (_ & _ & He)].
  assert (E : estimatedTimeLeft (state w)
              = formatRemaining (remainingSeconds (state w))).
  { rewrite He. unfold estimate. rewrite Hp, Hq. reflexivity. }
  rewrite E. repeat split.
  - apply formatRemaining_nonneg.
  - apply formatRemaining_nonpos.
Qed.

Lemma elementsNamed_length name n :
  length (Dom.elementsNamed name n) = Dom.countNamed name n.
Proof.
  induction n as [t cs IH | | |] using Dom.Node_nested_ind; try done.
  cbn [Dom.elementsNamed Dom.countNamed]. rewrite length_app. f_equal.
  - by destruct (String.eqb t name).
  - induction IH as [|c cs' Hc _ IHcs]; [done|].
    cbn. rewrite length_app. by rewrite Hc, IHcs.
Qed.

Lemma elementsNamed_text name n :
  Forall (fun e => Dom.textContent e = Some (Dom.descendantText e))
    (Dom.elementsNamed name n).
Proof.
  induction n as [t cs IH | | |] using Dom.Node_nested_ind;
    try by constructor.
  cbn [Dom.elementsNamed]. apply Forall_app. split.
  - destruct (String.eqb t name); by repeat constructor.
  - induction IH as [|c cs' Hc _ IHcs]; [by constructor|].
    cbn. apply Forall_app. by split.
Qed.

Lemma orEmpty_Some s : Js.orEmpty (Some s) = s.
Proof. unfold Js.orEmpty. by destruct (String.eqb_spec s ""). Qed.

(** C2, as the code has it: [parseSitemap] returns one record per [loc]
    element of the parsed document, in document order, each with
    [visited = false] and with the element's text content as its [url],
    taken as it is, without trimming; an element without text gives a
    record whose [url] is empty. *)
Theorem parseSitemap_records content :
  let locs := Dom.getElementsByTagName "loc" (parseFromString content) in
  length (parseSitemap content)
  = Dom.countElements "loc" (parseFromString content)
  /\ parseSitemap content
     = map (fun loc => {| url := Dom.descendantText loc; visited := false |})
           locs
  /\ (forall i loc, locs !! i = Some loc ->
                    Dom.descendantText loc = "" ->
                    parseSitemap content !! i
                    = Some {| url := ""; visited := false |}).
Proof.
  intros locs.
  assert (Hmap : parseSitemap content
                 = map (fun loc => {| url := Dom.descendantText loc;
                                      visited := false |}) locs).
  { unfold parseSitemap. fold locs. apply Forall_fmap_ext_1.
    assert (Hall : Forall (fun e => Dom.textContent e
                                    = Some (Dom.descendantText e)) locs).
    { subst locs. unfold Dom.getElementsByTagName.
      induction (Dom.documentChildren (parseFromString content))
        as [|c cs IH]; [by constructor|].
      cbn. apply Forall_app. split; [apply elementsNamed_text | done]. }
    eapply Forall_impl; [exact Hall|]. cbn. intros e ->.
    by rewrite orEmpty_Some. }
  split; [|split; [done|]].
  - rewrite Hmap, length_map. subst locs.
    unfold Dom.getElementsByTagName, Dom.countElements.
    induction (Dom.documentChildren (parseFromString content))
      as [|c cs IH]; [done|].
    cbn. rewrite length_app. by rewrite elementsNamed_length, IH.
  - intros i loc Hi Hempty. rewrite Hmap, list_lookup_fmap, Hi. cbn.
    by rewrite Hempty.
Qed.

End Properties.

(** ** What else the code shows *)
Section Behaviour.

Context {dom : DOMParser}.

Ltac unfold_all_handlers :=
  unfold handler, handleUrlSubmit, fetchSitemapBegin, fetchSitemapSettled,
    handleFileUpload, handleTimeDelayChange, startProcessing, cancelDialog,
    confirmStart, togglePause, resetProcess, timerFired, countdownTick,
    processNextUrl in *.

(** What the render after a handler leaves of the timers, the countdown and
    the estimate. *)
Lemma commit_timers before after :
  let w := commit before after in
  (deps (state before) = deps (state after) ->
   timer w = timer after /\ countdownTimer w = countdownTimer after
   /\ nextPageCountdown (state w) = nextPageCountdown (state after)
   /\ estimatedTimeLeft (state w) = estimatedTimeLeft (state after))
  /\ (deps (state before) <> deps (state after) ->
      timer w = (if armed (state after) then Some (state after) else None)
      /\ countdownTimer w = armed (state after)
      /\ nextPageCountdown (state w)
         = (if armed (state after) then timeDelay (state after)
            else nextPageCountdown (state after))
      /\ estimatedTimeLeft (state w) = estimate (state after)).
Proof.
  cbn zeta. unfold commit, runEffects. split; intros Hd.
  - by rewrite bool_decide_eq_true_2.
  - rewrite bool_decide_eq_false_2 by done.
    by destruct (armed (state after)).
Qed.

Lemma visitAt_length n l : length (visitAt n l) = length l.
Proof. unfold visitAt. by rewrite length_imap. Qed.

Lemma visitAt_url n l : map url (visitAt n l) = map url l.
Proof.
  unfold visitAt. apply list_eq. intros i.
  rewrite !list_lookup_fmap, list_lookup_imap.
  destruct (l !! i) as [u|]; [|done]. cbn. by case_match.
Qed.

(** The advancing branch of [processNextUrl], cell by cell. *)
Lemma processNextUrl_advance r w :
  -1 <= currentIndex r -> currentIndex r < urlsLength r - 1 ->
  isPaused r = false ->
  exists u,
    at_index (urls r) (currentIndex r + 1) = Some u
    /\ currentIndex (state (processNextUrl r w)) = currentIndex r + 1
    /\ urls (state (processNextUrl r w))
       = visitAt (currentIndex r + 1) (urls (state w))
    /\ opened (processNextUrl r w) = (opened w ++ [url u])%list
    /\ isProcessing (state (processNextUrl r w)) = isProcessing (state w)
    /\ isPaused (state (processNextUrl r w)) = isPaused (state w)
    /\ timeDelay (state (processNextUrl r w)) = timeDelay (state w)
    /\ timer (processNextUrl r w) = timer w
    /\ countdownTimer (processNextUrl r w) = countdownTimer w.
Proof.
  intros Hlo Hhi Hp.
  destruct (at_index_Some (urls r) (currentIndex r + 1)) as [u Hu].
  { unfold urlsLength in Hhi. lia. }
  exists u. split; [done|]. unfold processNextUrl.
  apply Z.ltb_lt in Hhi. rewrite Hhi, Hp, Hu. cbn. done.
Qed.

Lemma indexOk_handler e w :
  invariant w -> indexOk (state w) -> indexOk (state (handler e w)).
Proof.
  intros [(Ha & Hb & Hd & Hf) (Ht & Hc & He)] Hi.
  assert (Hadv : forall r w1,
             currentIndex r = currentIndex (state w) ->
             urlsLength r = urlsLength (state w) ->
             urls (state w1) = urls (state w) ->
             currentIndex (state w1) = currentIndex (state w) ->
             indexOk (state (processNextUrl r w1))).
  { intros r w1 Hr Hl Hu1 Hc1.
    destruct (Z.ltb_spec (currentIndex r) (urlsLength r - 1)) as [Hlt|Hge].
    - destruct (isPaused r) eqn:Hp.
      + unfold processNextUrl. rewrite Hp, andb_false_r.
        unfold indexOk, urlsLength in *.
        destruct (_ =? _); cbn; rewrite ?Hu1, ?Hc1; done.
      + destruct (processNextUrl_advance r w1) as (u & _ & E1 & E2 & _);
          [lia | done | done |].
        right. unfold urlsLength in *. rewrite E1, E2, visitAt_length, Hu1.
        lia.
    - unfold processNextUrl. apply Z.ltb_ge in Hge. rewrite Hge. cbn.
      unfold indexOk, urlsLength in *.
      destruct (_ =? _); cbn; rewrite ?Hu1, ?Hc1; done. }
  destruct e; cbn [handler]; try done.
  - unfold_all_handlers. by case_match.
  - unfold_all_handlers. unfold indexOk, urlsLength.
    destruct r as [|[] []]; cbn; auto.
    destruct (parseSitemap _); cbn; [by left | right; lia].
  - unfold_all_handlers. unfold indexOk, urlsLength. cbn.
    destruct (parseSitemap _); cbn; [by left | right; lia].
  - unfold_all_handlers. by repeat case_match.
  - unfold confirmStart. destruct (_ =? -1); [|done]. by apply Hadv.
  - unfold_all_handlers. unfold indexOk, urlsLength. cbn.
    destruct (urls (state w)); cbn; [by left | right; lia].
  - unfold timerFired. destruct (timer w) as [r|] eqn:Hr; [|done].
    destruct (Ht r eq_refl) as (_ & E1 & E2 & _). by apply Hadv.
  - unfold_all_handlers. by case_match.
Qed.

Lemma indexOk_commit before after :
  indexOk (state after) -> indexOk (state (commit before after)).
Proof.
  destruct (commit_cells before after) as (_ & E1 & _ & E2 & _).
  unfold indexOk, urlsLength. by rewrite E1, E2.
Qed.

Lemma reachable_indexOk w : reachable w -> indexOk (state w).
Proof.
  induction 1 as [|w e Hw IH]; [by left|].
  apply indexOk_commit, indexOk_handler; [by apply reachable_invariant|done].
Qed.

Lemma handler_timer e w :
  e <> TimerFire ->
  timer (handler e w) = timer w
  /\ countdownTimer (handler e w) = countdownTimer w.
Proof.
  intros He. destruct e; try done; unfold_all_handlers;
    repeat case_match; done.
Qed.

(** The expiry of a pending step timer, cell by cell: the render the timer
    belongs to agrees with the state, so the step advances. *)
Lemma timerFired_advance w r :
  reachable w -> timer w = Some r ->
  exists u,
    at_index (urls r) (currentIndex (state w) + 1) = Some u
    /\ currentIndex (state (handler TimerFire w)) = currentIndex (state w) + 1
    /\ urls (state (handler TimerFire w))
       = visitAt (currentIndex (state w) + 1) (urls (state w))
    /\ opened (handler TimerFire w) = (opened w ++ [url u])%list
    /\ isProcessing (state (handler TimerFire w)) = true
    /\ isPaused (state (handler TimerFire w)) = false
    /\ timeDelay (state (handler TimerFire w)) = timeDelay (state w).
Proof.
  intros Hw Hr.
  destruct (reachable_invariant w Hw) as [(Ha & _) (Ht & _)].
  destruct (Ht r Hr) as (Harm & Hi & Hl & Hq).
  unfold armed in Harm. apply andb_true_iff in Harm as [Harm Hlt].
  apply andb_true_iff in Harm as [Hp Hnp]. apply negb_true_iff in Hnp.
  apply Z.ltb_lt in Hlt.
  destruct (processNextUrl_advance r (setTimers None (countdownTimer w) w))
    as (u & Hu & E1 & E2 & E3 & E4 & E5 & E6 & _); [lia | lia | done |].
  exists u. cbn [handler]. unfold timerFired. rewrite Hr.
  rewrite <- Hi. rewrite E1, E2, E3, E4, E5, E6. done.
Qed.

Lemma timersPending_handle e w :
  reachable w -> timersPending w -> timersPending (handle e w).
Proof.
  intros Hw Hpend. unfold timersPending, handle.
  rewrite armed_commit. intros Harm.
  destruct (commit_timers w (handler e w)) as [Hsame Hdiff]. cbn zeta in *.
  destruct (decide (deps (state w) = deps (state (handler e w)))) as [Hd|Hd].
  - destruct (Hsame Hd) as (-> & -> & _).
    rewrite <- (armed_deps _ _ Hd) in Harm.
    destruct (Hpend Harm) as [[r Hr] Hc].
    assert (e = TimerFire \/ e <> TimerFire) as [->|Hne]
      by (destruct e; (by left) || (by right)).
    + destruct (timerFired_advance w r Hw Hr) as (u & _ & E & _).
      cbn [handler] in E, Hd. unfold deps in Hd. injection Hd. intros. lia.
    + destruct (handler_timer e w Hne) as [-> ->]. eauto.
  - destruct (Hdiff Hd) as (-> & -> & _). rewrite Harm. eauto.
Qed.

Lemma reachable_timersPending w : reachable w -> timersPending w.
Proof.
  induction 1 as [|w e Hw IH]; [done|]. by apply timersPending_handle.
Qed.

(** X1: in every reachable state the step timer is pending exactly when the
    guard of the timer effect holds (processing, not paused, a URL left
    after the current one), and so is the countdown interval: no armed step
    is ever lost and no stale one is ever left. *)
Theorem timers_follow_guard w :
  reachable w ->
  (is_Some (timer w) <-> armed (state w) = true)
  /\ (countdownTimer w = true <-> armed (state w) = true).
Proof.
  intros Hw. pose proof (reachable_timersPending w Hw) as Hp.
  destruct (reachable_invariant w Hw) as [_ (Ht & Hc & _)].
  split; split; try (intros Ha; by destruct (Hp Ha)); [|done].
  intros [r Hr]. by destruct (Ht r Hr).
Qed.

Lemma count_visited_upto (l : list SitemapUrl) (c : Z) :
  (forall i u, l !! i = Some u -> visited u = (Z.of_nat i <=? c)) ->
  Z.of_nat (length (List.filter visited l))
  = Z.max 0 (Z.min (c + 1) (Z.of_nat (length l))).
Proof.
  revert c. induction l as [|u l IH]; intros c Hv; [cbn; lia|].
  assert (Hu : visited u = (0 <=? c)) by apply (Hv 0%nat u eq_refl).
  assert (Htl : forall i v, l !! i = Some v ->
                            visited v = (Z.of_nat i <=? c - 1)).
  { intros i v Hi. rewrite (Hv (S i) v Hi).
    destruct (Z.leb_spec (Z.of_nat (S i)) c), (Z.leb_spec (Z.of_nat i) (c - 1));
      lia || done. }
  specialize (IH (c - 1) Htl). cbn [List.filter]. rewrite Hu.
  destruct (Z.leb_spec 0 c); cbn [length]; lia.
Qed.

Lemma reachable_progress w :
  reachable w ->
  Z.of_nat (progressCount (state w))
  = Z.min (currentIndex (state w) + 1) (urlsLength (state w)).
Proof.
  intros Hw. destruct (reachable_invariant w Hw) as [(Ha & Hb & _) _].
  unfold progressCount. rewrite (count_visited_upto _ _ Hb).
  unfold urlsLength. lia.
Qed.

(** X2: the first number of the progress line, the count of visited
    records, is [min (currentIndex + 1) urls.length] in every reachable
    state, and [currentIndex + 1] whenever the list is not empty. *)
Theorem progress_counts_index w :
  reachable w ->
  Z.of_nat (progressCount (state w))
  = Z.min (currentIndex (state w) + 1) (urlsLength (state w))
  /\ (urls (state w) <> [] ->
      Z.of_nat (progressCount (state w)) = currentIndex (state w) + 1).
Proof.
  intros Hw. split; [by apply reachable_progress|]. intros Hne.
  rewrite (reachable_progress w Hw).
  destruct (reachable_indexOk w Hw) as [|Hlt]; [done | lia].
Qed.

(** X3: a row reads Visited up to the current index and Pending after it;
    the Processing status never shows. *)
Theorem row_status_never_processing w i u :
  reachable w -> urls (state w) !! i = Some u ->
  rowStatus (state w) i u
  = (if Z.of_nat i <=? currentIndex (state w)
     then StatusVisited else StatusPending)
  /\ rowStatus (state w) i u <> StatusProcessing.
Proof.
  intros Hw Hi. destruct (reachable_invariant w Hw) as [(_ & Hb & _) _].
  unfold rowStatus. rewrite (Hb i u Hi).
  destruct (Z.leb_spec (Z.of_nat i) (currentIndex (state w))); [done|].
  destruct (Z.eqb_spec (Z.of_nat i) (currentIndex (state w))); [lia|done].
Qed.

Lemma allProcessedShown_last w :
  reachable w -> urls (state w) <> [] ->
  allProcessedShown (state w) = true
  <-> currentIndex (state w) = urlsLength (state w) - 1.
Proof.
  intros Hw Hne. destruct (reachable_invariant w Hw) as [(_ & Hb & _) _].
  unfold allProcessedShown. split.
  - intros [H1 _]%andb_true_iff. by apply Z.eqb_eq.
  - intros Hc. rewrite Hc, Z.eqb_refl. cbn.
    assert (Hn : 0 < urlsLength (state w)).
    { unfold urlsLength. destruct (urls (state w)); [done | cbn; lia]. }
    unfold at_index. destruct (Z.ltb_spec (urlsLength (state w) - 1) 0); [lia|].
    destruct (lookup_lt_is_Some_2 (urls (state w))
                (Z.to_nat (urlsLength (state w) - 1))) as [u Hu].
    { unfold urlsLength in *. lia. }
    rewrite Hu. cbn. rewrite (Hb _ u Hu). apply Z.leb_le.
    unfold urlsLength in *. lia.
Qed.

(** X4: over a non-empty list the line "All pages processed!" shows exactly
    when the index is on the last record, which is exactly when the progress
    line has counted every record. *)
Theorem all_processed_iff w :
  reachable w -> urls (state w) <> [] ->
  (allProcessedShown (state w) = true
   <-> currentIndex (state w) = urlsLength (state w) - 1)
  /\ (allProcessedShown (state w) = true
      <-> progressCount (state w) = length (urls (state w))).
Proof.
  intros Hw Hne. split; [by apply allProcessedShown_last|].
  rewrite (allProcessedShown_last w Hw Hne).
  pose proof (reachable_progress w Hw) as Hp.
  destruct (reachable_indexOk w Hw) as [|Hlt]; [done|].
  unfold urlsLength in *. lia.
Qed.

(** X5: in a reachable state that is not processing the index is [-1], no
    record is visited, the progress count is 0, "All pages processed!" is
    not shown, no timer is pending, the estimate is empty and the button
    reads Start. *)
Theorem idle_when_not_processing w :
  reachable w -> isProcessing (state w) = false ->
  currentIndex (state w) = -1
  /\ (forall i, visitedAt (state w) i = false)
  /\ progressCount (state w) = 0%nat
  /\ allProcessedShown (state w) = false
  /\ timer w = None
  /\ countdownTimer w = false
  /\ estimatedTimeLeft (state w) = ""
  /\ runButton (state w) = StartButton.
Proof.
  intros Hw Hnp.
  destruct (reachable_invariant w Hw) as [(_ & Hb & _ & Hf) (_ & _ & He)].
  pose proof (Hf Hnp) as Hc.
  assert (Harm : armed (state w) = false) by (unfold armed; by rewrite Hnp).
  destruct (no_timers_unless_armed w Hw Harm) as [Ht Hcd].
  pose proof (reachable_progress w Hw) as Hp. rewrite Hc in Hp.
  repeat split; try done.
  - intros i. unfold visitedAt.
    destruct (urls (state w) !! i) as [u|] eqn:Hi; [|done]. cbn.
    rewrite (Hb i u Hi), Hc. apply Z.leb_gt. lia.
  - unfold urlsLength in Hp. lia.
  - unfold allProcessedShown. rewrite Hc. cbn. by rewrite andb_false_r.
  - rewrite He. unfold estimate. by rewrite Hnp.
  - unfold runButton. by rewrite Hnp.
Qed.

(** X6: only Reset, or confirming Start over an empty list, ends the
    processing; no step, tick, load, pause or input does. *)
Theorem processing_ends_only_by_reset w e :
  reachable w -> isProcessing (state w) = true ->
  isProcessing (state (handle e w)) = false ->
  e = Reset
  \/ (e = ConfirmStart /\ urls (state w) = []
      /\ currentIndex (state w) = -1).
Proof.
  intros Hw Hp. unfold handle.
  destruct (commit_cells w (handler e w)) as (_ & _ & -> & _).
  destruct e; cbn [handler]; try (by left).
  all: try (unfold_all_handlers; repeat case_match; cbn; congruence).
  - intros Hend. right. unfold confirmStart in Hend.
    destruct (Z.eqb_spec (currentIndex (state w)) (-1)) as [Hc|Hc];
      [|cbn in Hend; done].
    unfold processNextUrl in Hend.
    destruct (_ && _); [by destruct (at_index _ _)|].
    destruct (Z.eqb_spec (currentIndex (state w)) (urlsLength (state w) - 1))
      as [Hl|Hl]; [|cbn in Hend; done].
    repeat split; try done. unfold urlsLength in Hl.
    destruct (urls (state w)); [done | cbn in Hl; lia].
  - intros Hend. unfold timerFired in Hend.
    destruct (timer w) as [r|] eqn:Hr; [|congruence].
    destruct (timerFired_advance w r Hw Hr) as (u & _ & _ & _ & _ & E & _).
    cbn [handler] in E. unfold timerFired in E. rewrite Hr in E. congruence.
Qed.

(** [processNextUrl] touches the index, the visited flags, [isProcessing]
    and the opened tabs, and nothing else. *)
Lemma processNextUrl_frame r w :
  let w' := processNextUrl r w in
  map url (urls (state w')) = map url (urls (state w))
  /\ isPaused (state w') = isPaused (state w)
  /\ timeDelay (state w') = timeDelay (state w)
  /\ nextPageCountdown (state w') = nextPageCountdown (state w)
  /\ isLoading (state w') = isLoading (state w)
  /\ error (state w') = error (state w)
  /\ pendingFetches w' = pendingFetches w
  /\ timer w' = timer w
  /\ countdownTimer w' = countdownTimer w
  /\ (isProcessing (state w') = isProcessing (state w)
      \/ isProcessing (state w') = false
         /\ currentIndex r = urlsLength r - 1).
Proof.
  cbn zeta. unfold processNextUrl.
  destruct (_ && _).
  - destruct (at_index _ _); cbn; rewrite ?visitAt_url; repeat split; auto.
    fold (visitAt (currentIndex r + 1) (urls (state w))).
    by rewrite visitAt_url.
  - destruct (Z.eqb_spec (currentIndex r) (urlsLength r - 1)); cbn;
      repeat split; auto.
Qed.

Ltac page_finish :=
  repeat split; intros; auto; try done; try lia; try congruence;
  try (match goal with
       | H : error _ <> "" -> _, H' : error _ <> "" |- _ =>
           destruct (H H'); try done; congruence
       end).

Lemma pageOk_handler e w :
  reachableUI w -> enabled e w = true -> pageOk w -> pageOk (handler e w).
Proof.
  intros Hui He (H1 & H2 & H3 & H4 & H5 & H6).
  pose proof (reachableUI_reachable w Hui) as Hw.
  pose proof (reachableUI_dialogOk w Hui) as Hdlg. unfold dialogOk in Hdlg.
  destruct (reachable_invariant w Hw) as [(Ha & Hb & Hd & Hf) (Ht & Hc & _)].
  destruct e; cbn [handler enabled] in *.
  - done.
  - apply negb_true_iff in He. rewrite He in H4.
    unfold handleUrlSubmit, fetchSitemapBegin, pageOk.
    destruct (String.eqb _ _); cbn; rewrite ?He, ?H4; page_finish.
  - destruct (isLoading (state w)) eqn:Hl;
      [|rewrite H4 in He; done].
    specialize (H5 eq_refl).
    unfold fetchSitemapSettled, pageOk. rewrite H4.
    destruct r as [|[] []]; cbn; page_finish.
  - unfold handleFileUpload, pageOk. cbn. page_finish.
  - apply negb_true_iff in He. specialize (H3 He).
    unfold handleTimeDelayChange, pageOk.
    destruct (Js.parseInt v) as [value|]; [|done].
    rewrite He. cbn. destruct (Z.leb_spec 20 value); [|done].
    cbn. rewrite H3. page_finish.
  - done.
  - done.
  - specialize (Hdlg He).
    assert (Hq : isPaused (state w) = false).
    { destruct (isPaused (state w)); [|done]. by rewrite H1 in Hdlg. }
    specialize (H3 Hdlg). unfold confirmStart.
    destruct (_ =? -1); [|unfold pageOk; cbn; page_finish].
    destruct (processNextUrl_frame (state w)
                (upd (setIsPaused false)
                   (upd (setIsProcessing true)
                      (upd (setShowPermissionDialog false) w))))
      as (Eu & E1 & E2 & E3 & E4 & E5 & E6 & _).
    cbn zeta in *. cbn in Eu, E1, E2, E3, E4, E5, E6.
    unfold pageOk. rewrite E1, E2, E3, E4, E5, E6.
    split; [done|]. split; [lia|]. split; [done|]. split; [done|].
    split; [done|]. intros Hne. destruct (H6 Hne) as [Hm Hnil].
    split; [done|]. rewrite Hnil in Eu.
    by destruct (urls (state (processNextUrl _ _))).
  - apply andb_true_iff in He as [_ He].
    unfold togglePause, pageOk. cbn. page_finish.
  - unfold resetProcess, pageOk. cbn. page_finish.
    destruct (H6 H) as [_ ->]. done.
  - unfold timerFired. destruct (timer w) as [r|] eqn:Hr; [|done].
    destruct (Ht r eq_refl) as (Harm & Hi & Hl & Hq).
    unfold armed in Harm. apply andb_true_iff in Harm as [Harm Hlt].
    apply andb_true_iff in Harm as [Hp Hnp]. apply Z.ltb_lt in Hlt.
    destruct (processNextUrl_frame r (setTimers None (countdownTimer w) w))
      as (Eu & E1 & E2 & E3 & E4 & E5 & E6 & _ & _ & E7).
    cbn zeta in *. cbn in Eu, E1, E2, E3, E4, E5, E6.
    assert (E8 : isProcessing
                   (state (processNextUrl r
                             (setTimers None (countdownTimer w) w))) = true).
    { destruct E7 as [-> | [_ E7]]; [done | lia]. }
    unfold pageOk. rewrite E1, E2, E3, E4, E5, E6, E8.
    split; [done|]. split; [lia|]. split; [done|]. split; [done|].
    split; [done|]. intros Hne. destruct (H6 Hne) as [Hm Hnil].
    split; [done|]. rewrite Hnil in Eu.
    by destruct (urls (state (processNextUrl _ _))).
  - rewrite (Hc He) in *. unfold armed in Hc.
    assert (Hp : isProcessing (state w) = true).
    { specialize (Hc He). apply andb_true_iff in Hc as [Hc _].
      by apply andb_true_iff in Hc as [Hc _]. }
    unfold countdownTick, pageOk. rewrite He. cbn.
    page_finish.
Qed.
Lemma pageOk_commit before after :
  pageOk after -> pageOk (commit before after).
Proof.
  intros (H1 & H2 & H3 & H4 & H5 & H6).
  destruct (commit_cells before after)
    as (_ & Eu & Ep & _ & Eq & _ & El & Ee & Ed & _).
  destruct (commit_env before after) as [Ef _].
  assert (Hcd : nextPageCountdown (state (commit before after))
                = nextPageCountdown (state after)
                \/ nextPageCountdown (state (commit before after))
                   = timeDelay (state after)
                   /\ isProcessing (state after) = true).
  { destruct (commit_timers before after) as [Hsame Hdiff]. cbn zeta in *.
    destruct (decide (deps (state before) = deps (state after))) as [Hd|Hd].
    - left. by destruct (Hsame Hd) as (_ & _ & -> & _).
    - destruct (Hdiff Hd) as (_ & _ & -> & _).
      destruct (armed (state after)) eqn:Ha; [right | by left].
      split; [done|]. unfold armed in Ha.
      apply andb_true_iff in Ha as [Ha _].
      by apply andb_true_iff in Ha as [Ha _]. }
  unfold pageOk. cbn zeta in *. rewrite Eu, Ep, Eq, El, Ee, Ed, Ef.
  destruct Hcd as [-> | [-> Hp]]; [done|].
  split; [done|]. split; [lia|]. split; [congruence|]. done.
Qed.

Lemma reachableUI_pageOk w : reachableUI w -> pageOk w.
Proof.
  induction 1 as [|w e Hw IH He].
  - unfold pageOk. cbn. repeat split; auto; try done.
  - by apply pageOk_commit, pageOk_handler.
Qed.

(** X7: on the page the pause flag is only set during a run, so the button
    reads Resume exactly when the sequencer is paused. *)
Theorem paused_only_while_processing w :
  reachableUI w ->
  (isPaused (state w) = true -> isProcessing (state w) = true)
  /\ (runButton (state w) = ResumeButton <-> isPaused (state w) = true).
Proof.
  intros Hw. destruct (reachableUI_pageOk w Hw) as (H1 & _).
  split; [done|]. unfold runButton.
  destruct (isPaused (state w)) eqn:Hq.
  - rewrite (H1 eq_refl). by cbn.
  - by destruct (isProcessing (state w)).
Qed.

(** X8: the countdown stays between 0 and the delay, and is 0 whenever the
    sequencer is not processing. *)
Theorem countdown_within_delay w :
  reachableUI w ->
  0 <= nextPageCountdown (state w) <= timeDelay (state w)
  /\ (isProcessing (state w) = false -> nextPageCountdown (state w) = 0).
Proof.
  intros Hw. by destruct (reachableUI_pageOk w Hw) as (_ & H2 & H3 & _).
Qed.

(** X9: one fetch at most is in flight, [isLoading] is true exactly while it
    is, and the Fetch button is only offered when none is. *)
Theorem one_fetch_in_flight w :
  reachableUI w ->
  (pendingFetches w <= 1)%nat
  /\ (isLoading (state w) = true <-> pendingFetches w = 1%nat)
  /\ (enabled UrlSubmit w = true -> pendingFetches w = 0%nat).
Proof.
  intros Hw. destruct (reachableUI_pageOk w Hw) as (_ & _ & _ & H4 & _).
  cbn [enabled]. rewrite H4. destruct (isLoading (state w)); cbn;
    repeat split; auto; try lia; done.
Qed.

(** X10: the error banner is only ever up over an empty list, with the one
    message of [fetchSitemap], and never while a fetch is in flight. *)
Theorem error_only_over_empty_list w :
  reachableUI w -> errorShown (state w) = true ->
  error (state w) = fetchErrorMessage
  /\ urls (state w) = []
  /\ listShown (state w) = false
  /\ isLoading (state w) = false.
Proof.
  intros Hw He. destruct (reachableUI_pageOk w Hw) as (_ & _ & _ & _ & H5 & H6).
  unfold errorShown in He. apply negb_true_iff in He.
  apply String.eqb_neq in He. destruct (H6 He) as [Hm Hnil].
  repeat split; try done.
  - unfold listShown, urlsLength. by rewrite Hnil.
  - destruct (isLoading (state w)); [|done]. by rewrite H5 in He.
Qed.
Lemma visitAt_head u rest : visitAt 0 (u :: rest) = markVisited u :: rest.
Proof.
  unfold visitAt. cbn. f_equal. apply list_eq. intros i.
  rewrite list_lookup_imap. destruct (rest !! i); [|done]. cbn.
  by destruct (Z.eqb_spec (Z.of_nat (S i)) 0); [lia|].
Qed.

Lemma freshTimer_commit before after :
  deps (state before) <> deps (state after) ->
  freshTimer (commit before after).
Proof.
  intros Hd r. destruct (commit_timers before after) as [_ Hdiff].
  destruct (Hdiff Hd) as (-> & _).
  destruct (commit_cells before after) as (_ & -> & _).
  destruct (armed (state after)); [|done]. by intros [= <-].
Qed.

(** The expiry of the pending step timer and the render after it. *)
Lemma handle_TimerFire_cells w r :
  reachable w -> timer w = Some r ->
  let c := currentIndex (state w) in
  let w' := handle TimerFire w in
  exists u,
    at_index (urls r) (c + 1) = Some u
    /\ currentIndex (state w') = c + 1
    /\ urls (state w') = visitAt (c + 1) (urls (state w))
    /\ opened w' = (opened w ++ [url u])%list
    /\ isProcessing (state w') = true
    /\ isPaused (state w') = false
    /\ timeDelay (state w') = timeDelay (state w)
    /\ (is_Some (timer w') <-> c + 1 < urlsLength (state w) - 1)
    /\ (is_Some (timer w') ->
        nextPageCountdown (state w') = timeDelay (state w))
    /\ freshTimer w'.
Proof.
  intros Hw Hr c w'.
  destruct (timerFired_advance w r Hw Hr)
    as (u & Hu & E1 & E2 & E3 & E4 & E5 & E6).
  assert (Hd : deps (state w) <> deps (state (handler TimerFire w))).
  { unfold deps. rewrite E1. intros [=]. lia. }
  destruct (commit_cells w (handler TimerFire w))
    as (_ & C1 & C2 & C3 & C4 & _ & _ & _ & C5 & _).
  destruct (commit_env w (handler TimerFire w)) as [_ C6].
  destruct (commit_timers w (handler TimerFire w)) as [_ Hdiff].
  destruct (Hdiff Hd) as (T1 & _ & T2 & _).
  assert (Ha : armed (state (handler TimerFire w))
               = (c + 1 <? urlsLength (state w) - 1)).
  { unfold armed, urlsLength. rewrite E1, E2, E4, E5, visitAt_length. done. }
  cbn zeta in *. fold (handle TimerFire w) in *. fold w' in C1, C2, C3, C4, C5, C6, T1, T2.
  exists u. rewrite C1, C2, C3, C4, C5, C6, T1, T2, Ha, E1, E2, E3, E4, E5, E6.
  fold c. repeat split; try done.
  - destruct (Z.ltb_spec (c + 1) (urlsLength (state w) - 1)); [done|].
    by intros [? ?].
  - intros Hlt. apply Z.ltb_lt in Hlt. rewrite Hlt. eauto.
  - intros [x Hx]. by destruct (_ <? _).
  - by apply freshTimer_commit.
Qed.

(** X11: when the pending step timer expires in a reachable state, the index
    advances by exactly one, exactly one tab is opened (the URL at the new
    index in the list of the render that armed the timer), the record at the
    new index is marked visited and no other, the progress count grows by
    one, the sequencer keeps processing, the next step is armed exactly when
    a URL remains after the new index, with the countdown back at the full
    delay, and, with the remaining seconds within [Number.MAX_SAFE_INTEGER],
    the estimate drops by one delay. *)
Theorem step_opens_next w r :
  reachable w -> timer w = Some r ->
  let c := currentIndex (state w) in
  let w' := handle TimerFire w in
  exists u,
    at_index (urls r) (c + 1) = Some u
    /\ currentIndex (state w') = c + 1
    /\ opened w' = (opened w ++ [url u])%list
    /\ urls (state w') = visitAt (c + 1) (urls (state w))
    /\ Z.of_nat (progressCount (state w'))
       = Z.of_nat (progressCount (state w)) + 1
    /\ isProcessing (state w') = true
    /\ (is_Some (timer w') <-> c + 1 < urlsLength (state w) - 1)
    /\ (is_Some (timer w') ->
        nextPageCountdown (state w') = timeDelay (state w'))
    /\ (remainingSeconds (state w) <= Js.maxSafeInteger ->
        estimatedTimeLeft (state w')
        = formatRemaining (remainingSeconds (state w) - timeDelay (state w))).
Proof.
  intros Hw Hr c w'.
  destruct (handle_TimerFire_cells w r Hw Hr)
    as (u & Hu & E1 & E2 & E3 & E4 & E5 & E6 & E7 & E8 & _).
  cbn zeta in *. fold c w' in Hu, E1, E2, E3, E4, E5, E6, E7, E8.
  assert (Hw' : reachable w') by by constructor.
  assert (Hest : estimatedTimeLeft (state w')
                 = formatRemaining
                     (remainingSeconds (state w) - timeDelay (state w))).
  { destruct (reachable_invariant w' Hw') as [_ (_ & _ & ->)].
    unfold estimate, remainingSeconds, urlsLength.
    rewrite E1, E2, E4, E5, E6, visitAt_length. cbn. f_equal. fold c. ring. }
  exists u. repeat split; try done; try apply E7.
  - rewrite (reachable_progress w Hw), (reachable_progress w' Hw').
    rewrite E1. unfold urlsLength. rewrite E2, visitAt_length.
    destruct (reachable_invariant w Hw) as [_ (Ht & _)].
    destruct (Ht r Hr) as (Harm & _). unfold armed in Harm.
    apply andb_true_iff in Harm as [_ Hlt]. apply Z.ltb_lt in Hlt.
    unfold urlsLength in Hlt. fold c in Hlt. fold c. lia.
  - intros Hs. rewrite E6. by apply E8.
Qed.

(** Confirming Start over a list that is not empty, on the page. *)
Lemma handle_ConfirmStart_cells w u rest :
  reachableUI w -> enabled ConfirmStart w = true ->
  urls (state w) = u :: rest ->
  let w' := handle ConfirmStart w in
  currentIndex (state w') = 0
  /\ urls (state w') = markVisited u :: rest
  /\ opened w' = (opened w ++ [url u])%list
  /\ isProcessing (state w') = true
  /\ isPaused (state w') = false
  /\ showPermissionDialog (state w') = false
  /\ timeDelay (state w') = timeDelay (state w)
  /\ (is_Some (timer w') <-> rest <> [])
  /\ (rest <> [] -> nextPageCountdown (state w') = timeDelay (state w))
  /\ freshTimer w'.
Proof.
  intros Hui He Hl w'.
  pose proof (reachableUI_reachable w Hui) as Hw.
  pose proof (reachableUI_dialogOk w Hui He) as Hnp.
  pose proof (not_processing_is_idle w Hw Hnp) as Hc.
  destruct (reachableUI_pageOk w Hui) as (H1 & _).
  assert (Hq : isPaused (state w) = false).
  { destruct (isPaused (state w)); [|done]. by rewrite H1 in Hnp. }
  set (w1 := upd (setIsPaused false)
               (upd (setIsProcessing true)
                  (upd (setShowPermissionDialog false) w))).
  assert (Hh : handler ConfirmStart w = processNextUrl (state w) w1).
  { cbn [handler]. unfold confirmStart. by rewrite Hc. }
  assert (Hlen : urlsLength (state w) = Z.of_nat (S (length rest))).
  { unfold urlsLength. by rewrite Hl. }
  destruct (processNextUrl_advance (state w) w1)
    as (u' & Hu & E1 & E2 & E3 & E4 & E5 & E6 & _); [lia | lia | done |].
  rewrite Hc in Hu, E1, E2. change (-1 + 1) with 0 in Hu, E1, E2.
  change (urls (state w1)) with (urls (state w)) in E2.
  change (isProcessing (state w1)) with true in E4.
  change (isPaused (state w1)) with false in E5.
  change (timeDelay (state w1)) with (timeDelay (state w)) in E6.
  change (opened w1) with (opened w) in E3.
  rewrite Hl in Hu. cbn in Hu. injection Hu as <-.
  rewrite Hl, visitAt_head in E2.
  assert (Hsd : showPermissionDialog (state (processNextUrl (state w) w1))
                = false).
  { unfold processNextUrl. by repeat case_match. }
  rewrite <- Hh in E1, E2, E3, E4, E5, E6, Hsd.
  assert (Hd : deps (state w) <> deps (state (handler ConfirmStart w))).
  { unfold deps. rewrite E1, Hc. intros [=]. }
  destruct (commit_cells w (handler ConfirmStart w))
    as (_ & C1 & C2 & C3 & C4 & _ & _ & _ & C5 & C7).
  destruct (commit_env w (handler ConfirmStart w)) as [_ C6].
  destruct (commit_timers w (handler ConfirmStart w)) as [_ Hdiff].
  destruct (Hdiff Hd) as (T1 & _ & T2 & _).
  assert (Ha : armed (state (handler ConfirmStart w))
               = (0 <? Z.of_nat (length rest))).
  { unfold armed, urlsLength. rewrite E1, E2, E4, E5. cbn [length negb andb].
    f_equal. lia. }
  cbn zeta in *. fold (handle ConfirmStart w) in *.
  fold w' in C1, C2, C3, C4, C5, C6, C7, T1, T2.
  rewrite C1, C2, C3, C4, C5, C6, C7, T1, T2, Ha, E1, E2, E3, E4, E5, E6, Hsd.
  repeat split; try done.
  - destruct rest; [by intros [? ?] | done].
  - destruct rest; [done|]. cbn. eauto.
  - destruct rest; [done|]. by cbn.
  - by apply freshTimer_commit.
Qed.

(** X12: confirming Start on the page over a list that is not empty opens
    the first URL at once, puts the index on 0 with that record visited and
    the others as they were, closes the dialog, and arms the step timer with
    the countdown at the full delay exactly when there is a second URL. *)
Theorem confirm_start_visits_first w u rest :
  reachableUI w -> enabled ConfirmStart w = true ->
  urls (state w) = u :: rest ->
  let w' := handle ConfirmStart w in
  opened w' = (opened w ++ [url u])%list
  /\ currentIndex (state w') = 0
  /\ urls (state w') = markVisited u :: rest
  /\ isProcessing (state w') = true
  /\ isPaused (state w') = false
  /\ showPermissionDialog (state w') = false
  /\ (is_Some (timer w') <-> rest <> [])
  /\ (rest <> [] -> nextPageCountdown (state w') = timeDelay (state w')).
Proof.
  intros Hui He Hl w'.
  destruct (handle_ConfirmStart_cells w u rest Hui He Hl)
    as (E1 & E2 & E3 & E4 & E5 & E6 & E7 & E8 & E9 & _).
  cbn zeta in *. fold w' in E1, E2, E3, E4, E5, E6, E7, E8, E9.
  repeat split; try done; try apply E8.
  intros Hne. rewrite E7. by apply E9.
Qed.
Lemma run_cons e es w : run (e :: es) w = run es (handle e w).
Proof. reflexivity. Qed.

(** [j] expiries of the step timer in a row, while URLs remain. *)
Lemma run_steps j : forall w,
  reachable w -> isProcessing (state w) = true ->
  isPaused (state w) = false -> freshTimer w ->
  currentIndex (state w) + Z.of_nat j <= urlsLength (state w) - 1 ->
  let w' := run (repeat TimerFire j) w in
  runUI (repeat TimerFire j) w = Some w'
  /\ reachable w'
  /\ currentIndex (state w') = currentIndex (state w) + Z.of_nat j
  /\ map url (urls (state w')) = map url (urls (state w))
  /\ opened w'
     = (opened w
        ++ take j (drop (Z.to_nat (currentIndex (state w) + 1))
                        (map url (urls (state w)))))%list.
Proof.
  induction j as [|j IH]; intros w Hw Hp Hq Hfresh Hle; cbn zeta.
  - cbn. rewrite app_nil_r. repeat split; try done. lia.
  - destruct (reachable_invariant w Hw) as [(Ha & _) _].
    assert (Harm : armed (state w) = true).
    { unfold armed. rewrite Hp, Hq. cbn. apply Z.ltb_lt. lia. }
    destruct (reachable_timersPending w Hw Harm) as [[r Hr] _].
    destruct (handle_TimerFire_cells w r Hw Hr)
      as (u & Hu & E1 & E2 & E3 & E4 & E5 & _ & _ & _ & Hfresh').
    cbn zeta in *. set (w1 := handle TimerFire w) in *.
    assert (Hw1 : reachable w1) by by constructor.
    assert (Hlen : urlsLength (state w1) = urlsLength (state w)).
    { unfold urlsLength. by rewrite E2, visitAt_length. }
    destruct (IH w1 Hw1 E4 E5 Hfresh') as (R1 & R2 & R3 & R4 & R5).
    { rewrite E1, Hlen. lia. }
    cbn zeta in *. cbn [repeat]. rewrite run_cons. fold w1.
    cbn [runUI enabled]. rewrite Hr. rewrite bool_decide_eq_true_2 by eauto.
    fold w1. rewrite R3, R4, R5, E1, E2, E3, visitAt_url.
    repeat split; try done; try lia.
    rewrite <- app_assoc. f_equal.
    rewrite (Hfresh r Hr) in Hu. unfold at_index in Hu.
    destruct (Z.ltb_spec (currentIndex (state w) + 1) 0); [lia|].
    replace (Z.to_nat (currentIndex (state w) + 1 + 1))
      with (S (Z.to_nat (currentIndex (state w) + 1))) by lia.
    rewrite (drop_S (map url (urls (state w))) (url u)
               (Z.to_nat (currentIndex (state w) + 1))); [done|].
    by rewrite list_lookup_fmap, Hu.
Qed.

(** X13: a whole run.  Confirming Start over a list of [n] URLs and letting
    the step timer expire [n - 1] times opens every URL of the list once, in
    order, marks every record visited and shows "All pages processed!"; the
    page offers each of these events, and at the end no timer is pending but
    the sequencer is still processing. *)
Theorem whole_run_opens_every_url w :
  reachableUI w -> enabled ConfirmStart w = true ->
  urls (state w) <> [] ->
  let n := length (urls (state w)) in
  let es := ConfirmStart :: repeat TimerFire (n - 1) in
  let w' := run es w in
  runUI es w = Some w'
  /\ opened w' = (opened w ++ map url (urls (state w)))%list
  /\ map url (urls (state w')) = map url (urls (state w))
  /\ progressCount (state w') = n
  /\ currentIndex (state w') = Z.of_nat n - 1
  /\ allProcessedShown (state w') = true
  /\ timer w' = None
  /\ isProcessing (state w') = true.
Proof.
  intros Hui He Hne. destruct (urls (state w)) as [|u rest] eqn:Hl; [done|].
  cbn zeta. cbn [length]. replace (S (length rest) - 1)%nat
    with (length rest) by lia.
  destruct (handle_ConfirmStart_cells w u rest Hui He Hl)
    as (E1 & E2 & E3 & E4 & E5 & _ & _ & _ & _ & Hfresh).
  cbn zeta in *. set (w1 := handle ConfirmStart w) in *.
  assert (Hw1 : reachable w1).
  { constructor. by apply reachableUI_reachable. }
  destruct (run_steps (length rest) w1 Hw1 E4 E5 Hfresh)
    as (R1 & R2 & R3 & R4 & R5).
  { unfold urlsLength. rewrite E1, E2. cbn [length]. lia. }
  cbn zeta in *. rewrite run_cons. fold w1. cbn [runUI]. rewrite He. fold w1.
  set (w' := run (repeat TimerFire (length rest)) w1) in *.
  rewrite E1 in R3, R5. rewrite E2 in R4, R5. rewrite E3 in R5.
  cbn in R4. change (Z.to_nat (0 + 1)) with 1%nat in R5.
  cbn [map drop] in R5. rewrite drop_0 in R5.
  rewrite take_ge in R5 by (rewrite length_map; lia).
  assert (Hn : urlsLength (state w') = Z.of_nat (S (length rest))).
  { unfold urlsLength.
    rewrite <- (length_map url (urls (state w'))), R4. cbn.
    by rewrite length_map. }
  assert (Hlast : currentIndex (state w') = urlsLength (state w') - 1)
    by (rewrite R3, Hn; lia).
  assert (Hne' : urls (state w') <> []).
  { intros Hnil. unfold urlsLength in Hn. rewrite Hnil in Hn. cbn in Hn. lia. }
  repeat split; try done.
  - rewrite R5, <- app_assoc. done.
  - pose proof (reachable_progress w' R2) as Hpr. rewrite Hlast, Hn in Hpr.
    lia.
  - rewrite Hlast, Hn. lia.
  - by apply allProcessedShown_last.
  - apply no_timers_unless_armed; [done|]. unfold armed.
    rewrite Hlast, Z.ltb_irrefl. by rewrite andb_false_r.
  - destruct (isProcessing (state w')) eqn:Hp; [done|].
    pose proof (not_processing_is_idle w' R2 Hp). lia.
Qed.

Lemma processNextUrl_opened r w :
  exists extra,
    opened (processNextUrl r w) = (opened w ++ extra)%list
    /\ (length extra <= 1)%nat.
Proof.
  unfold processNextUrl. destruct (_ && _).
  - destruct (at_index _ _) as [u|]; cbn.
    + exists [url u]. split; [done | cbn; lia].
    + exists []. split; [by rewrite app_nil_r | cbn; lia].
  - exists []. rewrite app_nil_r. split; [|cbn; lia]. by destruct (_ =? _).
Qed.

(** X14: no event opens more than one tab, and only confirming Start and the
    expiry of the step timer open any. *)
Theorem at_most_one_tab_per_event w e :
  exists extra,
    opened (handle e w) = (opened w ++ extra)%list
    /\ (length extra <= 1)%nat
    /\ (e <> ConfirmStart -> e <> TimerFire -> extra = []).
Proof.
  assert (Hnone : forall w', opened w' = opened w ->
            exists extra,
              opened w' = (opened w ++ extra)%list
              /\ (length extra <= 1)%nat
              /\ (e <> ConfirmStart -> e <> TimerFire -> extra = [])).
  { intros w' ->. exists []. rewrite app_nil_r.
    split; [done|]. split; [cbn; lia | done]. }
  unfold handle. destruct (commit_env w (handler e w)) as [_ ->].
  destruct e; cbn [handler];
    try (apply Hnone; unfold_all_handlers; by repeat case_match).
  - unfold confirmStart. destruct (_ =? -1); [|by apply Hnone].
    destruct (processNextUrl_opened (state w)
                (upd (setIsPaused false)
                   (upd (setIsProcessing true)
                      (upd (setShowPermissionDialog false) w))))
      as (extra & -> & Hlen).
    exists extra. split; [done|]. split; [done|]. done.
  - unfold timerFired. destruct (timer w) as [r|]; [|by apply Hnone].
    destruct (processNextUrl_opened r (setTimers None (countdownTimer w) w))
      as (extra & -> & Hlen).
    exists extra. split; [done|]. split; [done|]. done.
Qed.

(** X15: only a load changes the URLs of the list; every other event leaves
    their text, number and order alone. *)
Theorem only_loads_change_urls w e :
  (forall content, e <> FileLoaded content) ->
  (forall o, e <> FetchSettled o) ->
  map url (urls (state (handle e w))) = map url (urls (state w)).
Proof.
  intros Hf Hs. unfold handle.
  destruct (commit_cells w (handler e w)) as (_ & -> & _).
  destruct e; cbn [handler];
    try (unfold_all_handlers; by repeat case_match).
  - by destruct (Hs r).
  - by destruct (Hf content).
  - unfold confirmStart. destruct (_ =? -1); [|done].
    by destruct (processNextUrl_frame (state w)
                   (upd (setIsPaused false)
                      (upd (setIsProcessing true)
                         (upd (setShowPermissionDialog false) w))))
      as (-> & _).
  - unfold resetProcess. cbn. rewrite map_map. by apply map_ext.
  - unfold timerFired. destruct (timer w) as [r|]; [|done].
    by destruct (processNextUrl_frame r
                   (setTimers None (countdownTimer w) w)) as (-> & _).
Qed.

(** X16: pausing clears both timers and the estimate and keeps everything
    else, the countdown value included. *)
Theorem pause_cancels_timers w :
  isPaused (state w) = false ->
  let w' := handle TogglePause w in
  isPaused (state w') = true
  /\ timer w' = None
  /\ countdownTimer w' = false
  /\ estimatedTimeLeft (state w') = ""
  /\ countdownShown (state w') = false
  /\ nextPageCountdown (state w') = nextPageCountdown (state w)
  /\ currentIndex (state w') = currentIndex (state w)
  /\ urls (state w') = urls (state w)
  /\ opened w' = opened w.
Proof.
  intros Hq w'.
  assert (Hh : handler TogglePause w = upd (setIsPaused true) w).
  { cbn [handler]. unfold togglePause. by rewrite Hq. }
  assert (Hd : deps (state w) <> deps (state (handler TogglePause w))).
  { rewrite Hh. unfold deps. cbn. rewrite Hq. intros [=]. }
  destruct (commit_cells w (handler TogglePause w))
    as (_ & C1 & C2 & C3 & C4 & _).
  destruct (commit_env w (handler TogglePause w)) as [_ C6].
  destruct (commit_timers w (handler TogglePause w)) as [_ Hdiff].
  destruct (Hdiff Hd) as (T1 & T2 & T3 & T4).
  assert (Ha : armed (state (handler TogglePause w)) = false).
  { rewrite Hh. unfold armed. cbn. by rewrite andb_false_r. }
  cbn zeta in *. fold (handle TogglePause w) in *.
  fold w' in C1, C2, C3, C4, C6, T1, T2, T3, T4.
  unfold countdownShown.
  rewrite C1, C2, C3, C4, C6, T1, T2, T3, T4, Ha, Hh. cbn.
  unfold estimate. cbn. rewrite andb_false_r. done.
Qed.

(** X17: a reload that keeps the length of the list while the sequencer waits
    at index [-1] changes no dependency of the timer effect: the pending step
    stays that of the render before the reload, and when it expires it opens
    the first URL of that render's list while marking the first record of
    the new one. *)
Theorem same_length_reload_keeps_step w r content :
  reachable w -> timer w = Some r -> currentIndex (state w) = -1 ->
  length (parseSitemap content) = length (urls (state w)) ->
  let w1 := handle (FileLoaded content) w in
  timer w1 = Some r
  /\ urls (state w1) = parseSitemap content
  /\ exists u,
       at_index (urls r) 0 = Some u
       /\ opened (handle TimerFire w1) = (opened w ++ [url u])%list
       /\ urls (state (handle TimerFire w1))
          = visitAt 0 (parseSitemap content).
Proof.
  intros Hw Hr Hc Hlen w1.
  assert (Hd : deps (state w) = deps (state (handler (FileLoaded content) w))).
  { cbn [handler]. unfold handleFileUpload, deps, urlsLength. cbn.
    by rewrite Hc, Hlen. }
  destruct (commit_cells w (handler (FileLoaded content) w))
    as (_ & C1 & _ & C3 & _).
  destruct (commit_env w (handler (FileLoaded content) w)) as [_ C6].
  destruct (commit_timers w (handler (FileLoaded content) w)) as [Hsame _].
  destruct (Hsame Hd) as (T1 & _).
  cbn zeta in *. fold (handle (FileLoaded content) w) in *.
  fold w1 in C1, C3, C6, T1.
  cbn [handler] in C1, C3, C6, T1. unfold handleFileUpload in C1, C3, C6, T1.
  cbn in C1, C3, C6, T1. rewrite Hr in T1.
  assert (Hw1 : reachable w1) by by constructor.
  destruct (handle_TimerFire_cells w1 r Hw1 T1)
    as (u & Hu & _ & E2 & E3 & _).
  cbn zeta in *. rewrite C3 in Hu, E2. rewrite C1 in E2. rewrite C6 in E3.
  split; [done|]. split; [done|]. by exists u.
Qed.
Lemma digitValue_char d :
  (d < 10)%N -> Js.digitValue 10 (pretty_N_char d) = Some (Z.of_N d).
Proof.
  intros Hd. destruct d as [|p]; [reflexivity|].
  repeat (destruct p as [p|p|]; try reflexivity; try lia).
Qed.

Lemma digits_pretty_go x :
  (0 < x)%N -> forall s acc,
  exists k : nat,
    Js.digits 10 acc (pretty_N_go x s)
    = Js.digits 10 (Some (default 0 acc * 10 ^ Z.of_nat k + Z.of_N x)) s.
Proof.
  induction (N.lt_wf_0 x) as [x _ IH]. intros Hx s acc.
  rewrite pretty_N_go_step by done.
  assert (Hm : (x `mod` 10 < 10)%N) by (apply N.mod_lt; lia).
  pose proof (N.div_mod x 10 ltac:(lia)) as Hdm.
  destruct (decide (x `div` 10 = 0)%N) as [Hz|Hnz].
  - rewrite Hz, pretty_N_go_0. exists 1%nat. cbn [Js.digits].
    rewrite digitValue_char by done. f_equal. f_equal.
    rewrite Hz in Hdm. change (10 ^ Z.of_nat 1) with 10. lia.
  - destruct (IH (x `div` 10)%N) with
      (s := String (pretty_N_char (x `mod` 10)) s) (acc := acc) as [k Hk].
    + apply N.div_lt; lia.
    + lia.
    + exists (S k). rewrite Hk. cbn [Js.digits default].
      rewrite digitValue_char by done. cbn [default]. f_equal. f_equal.
      rewrite Nat2Z.inj_succ, Z.pow_succ_r by lia.
      unfold id. rewrite Hdm at 3. rewrite N2Z.inj_add, N2Z.inj_mul.
      change (Z.of_N 10) with 10. ring.
Qed.

Lemma pretty_go_first x :
  (0 < x)%N -> forall s,
  exists d rest,
    pretty_N_go x s = String (pretty_N_char d) rest /\ (0 < d < 10)%N.
Proof.
  induction (N.lt_wf_0 x) as [x _ IH]. intros Hx s.
  rewrite pretty_N_go_step by done.
  assert (Hm : (x `mod` 10 < 10)%N) by (apply N.mod_lt; lia).
  pose proof (N.div_mod x 10 ltac:(lia)) as Hdm.
  destruct (decide (x `div` 10 = 0)%N) as [Hz|Hnz].
  - rewrite Hz, pretty_N_go_0. exists (x `mod` 10)%N, s. split; [done|].
    rewrite Hz in Hdm. lia.
  - apply IH; [apply N.div_lt; lia | lia].
Qed.

Lemma parseInt_digit_first d rest :
  (0 < d < 10)%N ->
  Js.parseInt (String (pretty_N_char d) rest)
  = Js.digits 10 None (String (pretty_N_char d) rest)
  /\ Js.parseInt (String "-" (String (pretty_N_char d) rest))
     = (Z.opp <$> Js.digits 10 None (String (pretty_N_char d) rest)).
Proof.
  intros Hd. destruct d as [|p]; [lia|].
  repeat (destruct p as [p|p|]; try lia);
    (split; cbv -[Js.digits Z.mul Z.opp];
     match goal with
     | |- context [Js.digits ?a ?b ?c] =>
         destruct (Js.digits a b c) as [n|]; [f_equal; lia | done]
     end).
Qed.

(** The decimal text of an integer reads back as that integer. *)
Lemma parseInt_numberToString n : Js.parseInt (Js.numberToString n) = Some n.
Proof.
  unfold Js.numberToString, pretty, pretty_Z.
  destruct n as [|p|p]; [reflexivity| |].
  - unfold pretty, pretty_positive, pretty, pretty_N.
    destruct (decide (N.pos p = 0)%N); [done|].
    destruct (pretty_go_first (N.pos p) ltac:(lia) "") as (d & rest & Hs & Hd).
    destruct (digits_pretty_go (N.pos p) ltac:(lia) "" None) as [k Hk].
    rewrite Hs in Hk |- *.
    rewrite (proj1 (parseInt_digit_first d rest Hd)), Hk. cbn. f_equal; lia.
  - unfold pretty, pretty_positive, pretty, pretty_N.
    destruct (decide (N.pos p = 0)%N); [done|].
    destruct (pretty_go_first (N.pos p) ltac:(lia) "") as (d & rest & Hs & Hd).
    destruct (digits_pretty_go (N.pos p) ltac:(lia) "" None) as [k Hk].
    rewrite Hs in Hk |- *.
    change ("-" +:+ String (pretty_N_char d) rest)
      with (String "-" (String (pretty_N_char d) rest)).
    rewrite (proj2 (parseInt_digit_first d rest Hd)), Hk. cbn. f_equal; lia.
Qed.

(** X18: while the sequencer is not processing, the delay box takes the
    decimal text of any number from 20 up to [Number.MAX_SAFE_INTEGER] and
    refuses that of any smaller one. *)
Theorem delay_box_takes_20_and_up w n :
  isProcessing (state w) = false -> n <= Js.maxSafeInteger ->
  timeDelay (state (handle (DelayInput (Js.numberToString n)) w))
  = (if 20 <=? n then n else timeDelay (state w)).
Proof.
  intros Hp _. unfold handle.
  destruct (commit_cells w (handler (DelayInput (Js.numberToString n)) w))
    as (_ & _ & _ & _ & _ & _ & _ & _ & -> & _).
  cbn [handler]. unfold handleTimeDelayChange.
  rewrite parseInt_numberToString, Hp. cbn. by destruct (20 <=? n).
Qed.

(** X19: loading a file installs clean records at index [-1] and clears the
    error, but does not stop a run: the step timer is pending afterwards
    exactly when the sequencer was processing, not paused, and the new list
    is not empty. *)
Theorem file_load_restarts_run w content :
  reachable w ->
  let w' := handle (FileLoaded content) w in
  urls (state w') = parseSitemap content
  /\ currentIndex (state w') = -1
  /\ progressCount (state w') = 0%nat
  /\ error (state w') = ""
  /\ isProcessing (state w') = isProcessing (state w)
  /\ isPaused (state w') = isPaused (state w)
  /\ opened w' = opened w
  /\ (is_Some (timer w') <->
      isProcessing (state w) = true /\ isPaused (state w) = false
      /\ parseSitemap content <> []).
Proof.
  intros Hw w'.
  assert (Hw' : reachable w') by by constructor.
  destruct (commit_cells w (handler (FileLoaded content) w))
    as (_ & C1 & C2 & C3 & C4 & _ & _ & C5 & _).
  destruct (commit_env w (handler (FileLoaded content) w)) as [_ C6].
  cbn zeta in *. fold (handle (FileLoaded content) w) in *.
  fold w' in C1, C2, C3, C4, C5, C6.
  cbn [handler] in C1, C2, C3, C4, C5, C6.
  unfold handleFileUpload in C1, C2, C3, C4, C5, C6.
  cbn in C1, C2, C3, C4, C5, C6.
  pose proof (reachable_progress w' Hw') as Hpr.
  rewrite C3 in Hpr. unfold urlsLength in Hpr.
  assert (Harm : armed (state w') = true <->
                 isProcessing (state w) = true /\ isPaused (state w) = false
                 /\ parseSitemap content <> []).
  { unfold armed, urlsLength. rewrite C1, C2, C3, C4.
    rewrite !andb_true_iff, negb_true_iff, Z.ltb_lt.
    destruct (parseSitemap content); cbn [length]; split;
      intros [[? ?] ?] || intros (? & ? & ?); repeat split; try done; lia. }
  split; [done|]. split; [done|]. split; [lia|]. split; [done|].
  split; [done|]. split; [done|]. split; [done|].
  rewrite <- Harm. split.
  - intros [r Hr]. destruct (reachable_invariant w' Hw') as [_ (Ht & _)].
    by destruct (Ht r Hr).
  - intros Ha. by destruct (reachable_timersPending w' Hw' Ha).
Qed.

Lemma handle_Tick w :
  countdownTimer w = true ->
  handle Tick w
  = upd (fun s => setNextPageCountdown
                    (Z.max 0 (nextPageCountdown s - 1)) s) w.
Proof.
  intros Hc. unfold handle, commit. cbn [handler]. unfold countdownTick.
  rewrite Hc. by rewrite bool_decide_eq_true_2.
Qed.

(** X20: the ticks of the countdown lower it by one each, not below 0, from
    any value between 0 and [Number.MAX_SAFE_INTEGER], and touch nothing
    else: the step timer stays pending. *)
Theorem ticks_count_down k w :
  countdownTimer w = true ->
  0 <= nextPageCountdown (state w) <= Js.maxSafeInteger ->
  let w' := run (repeat Tick k) w in
  nextPageCountdown (state w')
  = Z.max 0 (nextPageCountdown (state w) - Z.of_nat k)
  /\ timer w' = timer w
  /\ countdownTimer w' = true
  /\ currentIndex (state w') = currentIndex (state w)
  /\ urls (state w') = urls (state w)
  /\ opened w' = opened w
  /\ runUI (repeat Tick k) w = Some w'.
Proof.
  revert w. induction k as [|k IH]; intros w Hc Hn; cbn zeta.
  - cbn. repeat split; try done. lia.
  - cbn [repeat]. rewrite run_cons. cbn [runUI enabled]. rewrite Hc.
    rewrite (handle_Tick w Hc).
    set (w1 := upd _ w).
    destruct (IH w1) as (E1 & E2 & E3 & E4 & E5 & E6 & E7);
      [done | cbn; lia |].
    cbn zeta in *. rewrite E1, E2, E3, E4, E5, E6, E7. cbn.
    repeat split; try done. lia.
Qed.

(** On the page a resume restarts the countdown at the full delay with both
    timers armed, unless the index is on the last record with every record
    visited, the state the visit of the last record leaves a run in: there
    it arms nothing and the countdown stays as it was. *)
Lemma resume_on_page w :
  reachableUI w -> enabled TogglePause w = true ->
  isPaused (state w) = true ->
  let w' := handle TogglePause w in
  (currentIndex (state w) < urlsLength (state w) - 1 ->
   nextPageCountdown (state w') = timeDelay (state w')
   /\ is_Some (timer w')
   /\ countdownTimer w' = true)
  /\ (~ currentIndex (state w) < urlsLength (state w) - 1 ->
      currentIndex (state w) = urlsLength (state w) - 1
      /\ allProcessedShown (state w) = true
      /\ nextPageCountdown (state w') = nextPageCountdown (state w)
      /\ timer w' = None
      /\ countdownTimer w' = false).
Proof.
  intros Hui He Hp w'.
  pose proof (reachableUI_reachable w Hui) as Hw.
  cbn [enabled] in He. apply andb_true_iff in He as [Hne Hpr].
  assert (Hl : urls (state w) <> []).
  { intros E. by rewrite E in Hne. }
  destruct (pause_and_resume w Hw) as (_ & Hpaused).
  destruct (Hpaused Hp) as (_ & _ & Hnext & Hlast).
  split.
  - intros Hlt. by apply Hnext.
  - intros Hge.
    destruct (reachable_indexOk w Hw) as [|Hlt]; [done|].
    assert (Hi : currentIndex (state w) = urlsLength (state w) - 1) by lia.
    split; [done|]. split; [by apply allProcessedShown_last|].
    apply Hlast. lia.
Qed.

End Behaviour.

(** ** The properties on the sample runs *)

#[local] Existing Instance Sample.parser.

Lemma visited_prefix_witness :
  visitedAt (state Sample.finished) 0 = true.
Proof.
  apply (visited_prefix Sample.finished 1 0).
  - apply reachable_run.
  - lia.
  - vm_compute. reflexivity.
Defined.

Lemma delay_floor_witness :
  20 <= timeDelay (state Sample.started)
  /\ 20 <= timeDelay (state (handle (DelayInput "5") Sample.started))
  /\ (isProcessing (state Sample.started) = true ->
      timeDelay (state (handle (DelayInput "5") Sample.started))
      = timeDelay (state Sample.started)).
Proof.
  apply (delay_floor Sample.started "5").
  apply reachable_run.
Defined.

Lemma reset_idempotent_witness :
  handle Reset (handle Reset Sample.finished) = handle Reset Sample.finished.
Proof.
  apply (proj1 (reset_idempotent Sample.finished
                  (reachable_run
                     [FileLoaded Sample.twoText; StartClick; ConfirmStart;
                      TimerFire]))).
Defined.

Lemma pause_and_resume_witness :
  nextPageCountdown (state (handle TogglePause Sample.paused))
  = timeDelay (state (handle TogglePause Sample.paused)).
Proof.
  assert (Hr : reachable Sample.paused) by apply reachable_run.
  assert (Hp : isPaused (state Sample.paused) = true)
    by (vm_compute; reflexivity).
  destruct (pause_and_resume Sample.paused Hr) as (_ & Hpaused).
  destruct (Hpaused Hp) as (_ & _ & Hresume & _).
  apply Hresume; vm_compute; reflexivity.
Defined.

Lemma start_with_empty_list_witness :
  isProcessing
    (state (handle ConfirmStart (run Sample.dialogOverEmpty initialWorld)))
  = false.
Proof.
  assert (Hr : reachableUI (run Sample.dialogOverEmpty initialWorld)).
  { apply (runUI_reachableUI Sample.dialogOverEmpty initialWorld).
    - constructor.
    - vm_compute. reflexivity. }
  assert (He : enabled ConfirmStart (run Sample.dialogOverEmpty initialWorld)
               = true) by (vm_compute; reflexivity).
  assert (Hnil : urls (state (run Sample.dialogOverEmpty initialWorld)) = [])
    by (vm_compute; reflexivity).
  apply (proj1 (start_with_empty_list _ Hr He Hnil)).
Defined.

Lemma start_when_complete_witness :
  isProcessing (state (handle ConfirmStart Sample.completed)) = true.
Proof.
  assert (Hc : complete (state Sample.completed)).
  { unfold complete. split; [|split; [|split]].
    - vm_compute. discriminate.
    - vm_compute. reflexivity.
    - exists {| url := "https://a.example/"; visited := true |}.
      split; vm_compute; reflexivity.
    - vm_compute. reflexivity. }
  apply (proj1 (start_when_complete Sample.completed Hc)).
Defined.

Lemma remote_load_witness :
  urls (state (handle (FetchSettled FetchRejected) Sample.started)) = []
  /\ urls (state (handle (FetchSettled
                            (FetchResponse true (Some Sample.oneText)))
                    Sample.started))
     = parseSitemap Sample.oneText.
Proof.
  split.
  - apply (proj1 (remote_load Sample.started FetchRejected)).
    vm_compute. reflexivity.
  - apply (proj2 (remote_load Sample.started
                    (FetchResponse true (Some Sample.oneText)))
             Sample.oneText eq_refl).
Defined.

Lemma estimate_while_running_witness :
  estimatedTimeLeft (state Sample.started)
  = formatRemaining (remainingSeconds (state Sample.started)).
Proof.
  assert (Hr : reachable Sample.started) by apply reachable_run.
  assert (Hp : isProcessing (state Sample.started) = true)
    by (vm_compute; reflexivity).
  assert (Hq : isPaused (state Sample.started) = false)
    by (vm_compute; reflexivity).
  assert (Hb : remainingSeconds (state Sample.started) <= Js.maxSafeInteger)
    by (vm_compute; discriminate).
  apply (proj1 (estimate_while_running Sample.started Hr Hp Hq Hb)).
Defined.

Lemma parseSitemap_records_witness :
  parseSitemap Sample.paddedText !! 1%nat
  = Some {| url := ""; visited := false |}.
Proof.
  destruct (parseSitemap_records Sample.paddedText) as (_ & _ & Hempty).
  apply (Hempty 1%nat (Dom.Element "loc" [])); vm_compute; reflexivity.
Defined.

(** The scenario of the specification, run: [A], [B] and [C] are opened in
    order and all visited, the index is 2 and nothing is pending any more,
    yet [isProcessing] is still true. *)
Example three_url_scenario :
  let w := run Sample.scenario initialWorld in
  runUI Sample.scenario initialWorld = Some w
  /\ opened w = ["A"; "B"; "C"]
  /\ map visited (urls (state w)) = [true; true; true]
  /\ currentIndex (state w) = 2
  /\ timer w = None
  /\ countdownTimer w = false
  /\ isProcessing (state w) = true.
Proof. vm_compute. repeat split. Qed.

(** ** Where the code falls short of the specification *)

(** C7, where the code parts from it: the scenario of the specification run
    on the page (three URLs, delay 20, Start, Allow and Start, two steps).
    The last step leaves the index on the last record with every record
    visited and nothing pending, so the second half of the claim holds (no
    timer event is offered, and one that came would change nothing); but
    [isProcessing] is still true: the state is not Complete and the page
    offers Pause, not Start.  The step that would find
    [currentIndex === urls.length - 1] in [processNextUrl] is never armed,
    because the timer effect arms one only while
    [currentIndex < urls.length - 1]. *)
Theorem last_visit_never_completes :
  let w := run Sample.scenario initialWorld in
  runUI Sample.scenario initialWorld = Some w
  /\ currentIndex (state w) = urlsLength (state w) - 1
  /\ map visited (urls (state w)) = [true; true; true]
  /\ allProcessedShown (state w) = true
  /\ timer w = None
  /\ countdownTimer w = false
  /\ enabled TimerFire w = false
  /\ enabled Tick w = false
  /\ handle TimerFire w = w
  /\ handle Tick w = w
  /\ isProcessing (state w) = true
  /\ runButton (state w) = PauseButton
  /\ ~ complete (state w).
Proof.
  vm_compute. repeat split. intros (_ & _ & _ & Hp). discriminate Hp.
Qed.

(** C6, where the code parts from it: one URL, started, paused and resumed
    on the page.  The visit of the only record left [isProcessing] true
    (the defect of C7: the run never completes), so the page still offers
    Pause and Resume on the last record; after the resume the sequencer is
    processing and not paused and the page shows the countdown line, yet no
    countdown was restarted: the delay is 30, the countdown 0, and no timer
    is pending. *)
Theorem resume_on_last_record :
  let w := run Sample.pausedOne initialWorld in
  let w' := handle TogglePause w in
  runUI Sample.resumedOne initialWorld = Some w'
  /\ currentIndex (state w) = urlsLength (state w) - 1
  /\ isProcessing (state w) = true
  /\ isPaused (state w) = true
  /\ runButton (state w) = ResumeButton
  /\ isPaused (state w') = false
  /\ countdownShown (state w') = true
  /\ timeDelay (state w') = 30
  /\ nextPageCountdown (state w') = 0
  /\ nextPageCountdown (state w') <> timeDelay (state w')
  /\ timer w' = None
  /\ countdownTimer w' = false.
Proof. vm_compute. repeat split. discriminate. Qed.

(** ** Where the wording of the specification and the code part *)

(** C2 as stated fails: the text content is not trimmed.  For a location
    written [<loc> https://a.example/ </loc>] the record keeps the blanks. *)
Lemma parseSitemap_trimmed_counterexample :
  url <$> parseSitemap Sample.paddedText !! 0%nat
  = Some " https://a.example/ "
  /\ url <$> parseSitemapTrimmed Sample.paddedText !! 0%nat
     = Some "https://a.example/"
  /\ parseSitemap Sample.paddedText <> parseSitemapTrimmed Sample.paddedText.
Proof.
  split; [|split].
  - vm_compute. reflexivity.
  - vm_compute. reflexivity.
  - vm_compute. discriminate.
Qed.

(** C3 as stated fails: zero-valued components that are not leading are
    omitted too.  With two URLs and a delay of 60 seconds the running
    estimate after the first visit is ["1m"], where omitting only the leading
    zero-valued components gives ["1m 0s"]. *)
Lemma estimate_leading_zeros_counterexample :
  let w := run Sample.minuteRun initialWorld in
  runUI Sample.minuteRun initialWorld = Some w
  /\ isProcessing (state w) = true
  /\ isPaused (state w) = false
  /\ remainingSeconds (state w) = 60
  /\ estimatedTimeLeft (state w) = "1m"
  /\ formatOmittingLeadingZeros (remainingSeconds (state w)) = "1m 0s"
  /\ estimatedTimeLeft (state w)
     <> formatOmittingLeadingZeros (remainingSeconds (state w)).
Proof. vm_compute. repeat split. discriminate. Qed.

(** C8 as stated fails: a failed fetch during a run clears the list and
    reports the error but leaves the sequencer processing at its index. *)
Lemma failed_fetch_counterexample :
  let w := run Sample.failedFetch initialWorld in
  runUI Sample.failedFetch initialWorld = Some w
  /\ error (state w) = fetchErrorMessage
  /\ urls (state w) = []
  /\ isProcessing (state w) = true
  /\ currentIndex (state w) = 0
  /\ ~ (isProcessing (state w) = false /\ currentIndex (state w) = -1).
Proof. vm_compute. repeat split. intros [Hp _]. discriminate Hp. Qed.

(** ** The further properties on the sample runs *)

Lemma timers_follow_guard_witness :
  is_Some (timer Sample.started) <-> armed (state Sample.started) = true.
Proof.
  apply (proj1 (timers_follow_guard Sample.started
                  (reachable_run
                     [FileLoaded Sample.twoText; StartClick; ConfirmStart]))).
Defined.

Lemma progress_counts_index_witness :
  Z.of_nat (progressCount (state Sample.finished))
  = currentIndex (state Sample.finished) + 1.
Proof.
  assert (Hr : reachable Sample.finished) by apply reachable_run.
  apply (proj2 (progress_counts_index Sample.finished Hr)).
  vm_compute. discriminate.
Defined.

Lemma row_status_never_processing_witness :
  rowStatus (state Sample.started) 0
    {| url := "https://a.example/"; visited := true |}
  <> StatusProcessing.
Proof.
  assert (Hr : reachable Sample.started) by apply reachable_run.
  assert (Hu : urls (state Sample.started) !! 0%nat
               = Some {| url := "https://a.example/"; visited := true |})
    by (vm_compute; reflexivity).
  apply (proj2 (row_status_never_processing Sample.started 0 _ Hr Hu)).
Defined.

Lemma all_processed_iff_witness :
  allProcessedShown (state Sample.finished) = true
  <-> currentIndex (state Sample.finished)
      = urlsLength (state Sample.finished) - 1.
Proof.
  assert (Hr : reachable Sample.finished) by apply reachable_run.
  assert (Hne : urls (state Sample.finished) <> [])
    by (vm_compute; discriminate).
  apply (proj1 (all_processed_iff Sample.finished Hr Hne)).
Defined.

Lemma idle_when_not_processing_witness :
  currentIndex (state (run [FileLoaded Sample.twoText] initialWorld)) = -1.
Proof.
  assert (Hr : reachable (run [FileLoaded Sample.twoText] initialWorld))
    by apply reachable_run.
  assert (Hp : isProcessing
                 (state (run [FileLoaded Sample.twoText] initialWorld))
               = false) by (vm_compute; reflexivity).
  apply (proj1 (idle_when_not_processing _ Hr Hp)).
Defined.

Lemma processing_ends_only_by_reset_witness :
  Reset = Reset
  \/ (Reset = ConfirmStart /\ urls (state Sample.started) = []
      /\ currentIndex (state Sample.started) = -1).
Proof.
  apply (processing_ends_only_by_reset Sample.started Reset).
  - apply reachable_run.
  - vm_compute. reflexivity.
  - vm_compute. reflexivity.
Defined.

Lemma paused_only_while_processing_witness :
  runButton (state (run Sample.pausedRun initialWorld)) = ResumeButton
  <-> isPaused (state (run Sample.pausedRun initialWorld)) = true.
Proof.
  assert (Hr : reachableUI (run Sample.pausedRun initialWorld)).
  { apply (runUI_reachableUI Sample.pausedRun initialWorld);
      [constructor | vm_compute; reflexivity]. }
  apply (proj2 (paused_only_while_processing _ Hr)).
Defined.

Lemma countdown_within_delay_witness :
  0 <= nextPageCountdown (state (run Sample.pausedRun initialWorld))
  <= timeDelay (state (run Sample.pausedRun initialWorld)).
Proof.
  assert (Hr : reachableUI (run Sample.pausedRun initialWorld)).
  { apply (runUI_reachableUI Sample.pausedRun initialWorld);
      [constructor | vm_compute; reflexivity]. }
  apply (proj1 (countdown_within_delay _ Hr)).
Defined.

Lemma one_fetch_in_flight_witness :
  (pendingFetches (run Sample.failedFetch initialWorld) <= 1)%nat.
Proof.
  assert (Hr : reachableUI (run Sample.failedFetch initialWorld)).
  { apply (runUI_reachableUI Sample.failedFetch initialWorld);
      [constructor | vm_compute; reflexivity]. }
  apply (proj1 (one_fetch_in_flight _ Hr)).
Defined.

Lemma error_only_over_empty_list_witness :
  urls (state (run Sample.failedFirstFetch initialWorld)) = [].
Proof.
  assert (Hr : reachableUI (run Sample.failedFirstFetch initialWorld)).
  { apply (runUI_reachableUI Sample.failedFirstFetch initialWorld);
      [constructor | vm_compute; reflexivity]. }
  assert (He : errorShown (state (run Sample.failedFirstFetch initialWorld))
               = true) by (vm_compute; reflexivity).
  apply (proj1 (proj2 (error_only_over_empty_list _ Hr He))).
Defined.

Lemma step_opens_next_witness :
  exists u,
    at_index (urls (Sample.pendingRender Sample.started))
      (currentIndex (state Sample.started) + 1) = Some u
    /\ currentIndex (state (handle TimerFire Sample.started))
       = currentIndex (state Sample.started) + 1
    /\ estimatedTimeLeft (state (handle TimerFire Sample.started))
       = formatRemaining (remainingSeconds (state Sample.started)
                          - timeDelay (state Sample.started)).
Proof.
  assert (Hr : reachable Sample.started) by apply reachable_run.
  assert (Ht : timer Sample.started
               = Some (Sample.pendingRender Sample.started))
    by (vm_compute; reflexivity).
  assert (Hb : remainingSeconds (state Sample.started) <= Js.maxSafeInteger)
    by (vm_compute; discriminate).
  destruct (step_opens_next Sample.started _ Hr Ht)
    as (u & Hu & Hc & _ & _ & _ & _ & _ & _ & He).
  exists u. split; [exact Hu | split; [exact Hc | exact (He Hb)]].
Defined.

Lemma confirm_start_visits_first_witness :
  opened (handle ConfirmStart (run Sample.dialogOverOne initialWorld))
  = (opened (run Sample.dialogOverOne initialWorld)
     ++ ["https://a.example/"])%list.
Proof.
  assert (Hr : reachableUI (run Sample.dialogOverOne initialWorld)).
  { apply (runUI_reachableUI Sample.dialogOverOne initialWorld);
      [constructor | vm_compute; reflexivity]. }
  assert (He : enabled ConfirmStart (run Sample.dialogOverOne initialWorld)
               = true) by (vm_compute; reflexivity).
  assert (Hl : urls (state (run Sample.dialogOverOne initialWorld))
               = [{| url := "https://a.example/"; visited := false |}])
    by (vm_compute; reflexivity).
  apply (proj1 (confirm_start_visits_first _ _ _ Hr He Hl)).
Defined.

Lemma whole_run_opens_every_url_witness :
  let w := run Sample.dialogOverThree initialWorld in
  let es := ConfirmStart :: repeat TimerFire (length (urls (state w)) - 1) in
  opened (run es w) = (opened w ++ map url (urls (state w)))%list.
Proof.
  assert (Hr : reachableUI (run Sample.dialogOverThree initialWorld)).
  { apply (runUI_reachableUI Sample.dialogOverThree initialWorld);
      [constructor | vm_compute; reflexivity]. }
  assert (He : enabled ConfirmStart (run Sample.dialogOverThree initialWorld)
               = true) by (vm_compute; reflexivity).
  assert (Hne : urls (state (run Sample.dialogOverThree initialWorld)) <> [])
    by (vm_compute; discriminate).
  apply (proj1 (proj2 (whole_run_opens_every_url _ Hr He Hne))).
Defined.

Lemma at_most_one_tab_per_event_witness :
  exists extra,
    opened (handle TimerFire Sample.started)
    = (opened Sample.started ++ extra)%list
    /\ (length extra <= 1)%nat.
Proof.
  destruct (at_most_one_tab_per_event Sample.started TimerFire)
    as (extra & Ho & Hl & _).
  exists extra. split; [exact Ho | exact Hl].
Defined.

Lemma only_loads_change_urls_witness :
  map url (urls (state (handle Reset Sample.finished)))
  = map url (urls (state Sample.finished)).
Proof.
  apply (only_loads_change_urls Sample.finished Reset); discriminate.
Defined.

Lemma pause_cancels_timers_witness :
  timer (handle TogglePause Sample.started) = None.
Proof.
  assert (Hq : isPaused (state Sample.started) = false)
    by (vm_compute; reflexivity).
  apply (proj1 (proj2 (pause_cancels_timers Sample.started Hq))).
Defined.

Lemma same_length_reload_keeps_step_witness :
  timer (handle (FileLoaded Sample.twoText) Sample.reloaded)
  = Some (Sample.pendingRender Sample.reloaded).
Proof.
  assert (Hr : reachable Sample.reloaded) by apply reachable_run.
  assert (Ht : timer Sample.reloaded
               = Some (Sample.pendingRender Sample.reloaded))
    by (vm_compute; reflexivity).
  assert (Hc : currentIndex (state Sample.reloaded) = -1)
    by (vm_compute; reflexivity).
  assert (Hl : length (parseSitemap Sample.twoText)
               = length (urls (state Sample.reloaded)))
    by (vm_compute; reflexivity).
  apply (proj1 (same_length_reload_keeps_step _ _ _ Hr Ht Hc Hl)).
Defined.

Lemma delay_box_takes_20_and_up_witness :
  timeDelay (state (handle (DelayInput (Js.numberToString 45)) initialWorld))
  = (if 20 <=? 45 then 45 else timeDelay (state initialWorld)).
Proof.
  apply (delay_box_takes_20_and_up initialWorld 45).
  - vm_compute. reflexivity.
  - vm_compute. discriminate.
Defined.

Lemma file_load_restarts_run_witness :
  urls (state (handle (FileLoaded Sample.oneText) Sample.started))
  = parseSitemap Sample.oneText.
Proof.
  assert (Hr : reachable Sample.started) by apply reachable_run.
  apply (proj1 (file_load_restarts_run Sample.started Sample.oneText Hr)).
Defined.

Lemma ticks_count_down_witness :
  nextPageCountdown (state (run (repeat Tick 3) Sample.started))
  = Z.max 0 (nextPageCountdown (state Sample.started) - Z.of_nat 3).
Proof.
  assert (Hc : countdownTimer Sample.started = true)
    by (vm_compute; reflexivity).
  assert (Hn : 0 <= nextPageCountdown (state Sample.started)
               <= Js.maxSafeInteger)
    by (vm_compute; split; discriminate).
  apply (proj1 (ticks_count_down 3 Sample.started Hc Hn)).
Defined.

(** The reload of X17 on the sample run: the list on the page is the two
    plain URLs, yet the step opens the padded URL of the list before. *)
Example stale_step_opens_replaced_url :
  let w1 := handle (FileLoaded Sample.twoText) Sample.reloaded in
  map url (urls (state w1)) = ["https://a.example/"; "https://b.example/"]
  /\ opened (handle TimerFire w1)
     = ["https://a.example/"; " https://a.example/ "]
  /\ map visited (urls (state (handle TimerFire w1))) = [true; false].
Proof. vm_compute. repeat split. Qed.
